(** * leapfrog-api: the OpenAI schema classes and the vector-store router

    A shallow embedding of [src/backends/openai/types.py] and
    [src/vectordb/vector_stores.py].

    The router code is sequential Python that talks to third-party
    libraries (llama_index, weaviate, chromadb), to [utils] (configuration,
    logging, clock) and to the process environment.  Every call that leaves
    the repository is an _external call_: it is answered by the [World], it
    may raise, and it is written to the trace together with its answer.
    Everything else (branching, sequencing, the records that are returned,
    class attribute lookup) is translated from the source. *)

From Stdlib Require Import List String ZArith QArith Bool Lia.
Import ListNotations.
Local Open Scope string_scope.
Local Open Scope list_scope.

Set Implicit Arguments.

(** ** Python values used by the code *)

(** [os.environ.get], a class attribute, a keyword argument: all of them
    hold either a [str] or [None]. *)
Definition OptStr := option string.

(** [f'{v}'] for such a value: [None] is rendered as the text [None]. *)
Definition py_format (v : OptStr) : string :=
  match v with
  | Some s => s
  | None => "None"
  end.

(** [x in l] for a Python list of strings: a linear scan with [==]. *)
Definition py_in (x : string) (l : list string) : bool :=
  existsb (String.eqb x) l.

(** A [dict] with string keys, in insertion order. *)
Definition Dict (V : Type) := list (string * V).

Fixpoint dict_get {V : Type} (d : Dict V) (k : string) : option V :=
  match d with
  | [] => None
  | (k', v) :: d' => if String.eqb k k' then Some v else dict_get d' k
  end.

(** The pieces of an f-string: literal text and interpolated values. *)
Inductive FPart : Type :=
| FLit (s : string)
| FStr (v : OptStr)
| FList (l : list string)
| FDict (d : Dict (Dict string)).

Definition FString := list FPart.

(** Exceptions.  [LibraryError] stands for whatever a third-party call
    raises; the other three are raised by the interpreter on the
    repository's own code. *)
Inductive Exn : Type :=
| LibraryError (what : string)
| KeyError (key : string)
| UnboundLocalError (name : string)
| AttributeError (cls attr : string).

(** ** Configuration objects of [utils.get_model_config] *)

Record ModelSpec : Type := { hub : string; model : string }.

Record RagConfig : Type := { llm : ModelSpec; vector_stores : list string }.

Record ModelConfig : Type := { rag : RagConfig }.

(** ** Third-party objects

    The objects built by llama_index, weaviate and chromadb are opaque to
    the repository: it only passes them on. *)
Class Library : Type := {
  LLM : Type;
  EmbedModel : Type;
  ServiceContext : Type;
  WeaviateClient : Type;
  ChromaClient : Type;
  Collection : Type;
  VectorStore : Type;
  StorageContext : Type;
  Index : Type;
  QueryEngine : Type;
  Docs : Type;
  Answer : Type;
  Time : Type;
  Elapsed : Type
}.

(** The external calls of [vector_stores.py], indexed by what they return.
    Each constructor is named after the Python callable. *)
Inductive Call `{Library} : Type -> Type :=
| get_model_config : Call ModelConfig
| get_rag_embed_model (cfg : ModelConfig) : Call ModelSpec
| HuggingFaceLLM (tokenizer_name model_name : string) : Call LLM
| OpenAI (tokenizer_name model_name : string) : Call LLM
| HuggingFaceEmbedding (model_name : string) : Call EmbedModel
| OpenAIEmbedding (model_name : string) : Call EmbedModel
| ServiceContext_from_defaults (llm : option LLM)
    (embed_model : EmbedModel + string) : Call ServiceContext
| set_global_service_context (sc : ServiceContext) : Call unit
| ServiceContext_to_dict (sc : ServiceContext) : Call (Dict (Dict string))
| log (msg : FString) : Call unit
| now : Call Time
| get_elapsed (start : Time) : Call Elapsed
| weaviate_Client (url : string) : Call WeaviateClient
| WeaviateVectorStore (weaviate_client : WeaviateClient)
    (index_name : OptStr) : Call VectorStore
| chromadb_HttpClient (host port : OptStr) : Call ChromaClient
| get_or_create_collection (client : ChromaClient)
    (name : OptStr) : Call Collection
| ChromaVectorStore (chroma_collection : Collection) : Call VectorStore
| StorageContext_from_defaults (vector_store : VectorStore)
    : Call StorageContext
| VectorStoreIndex_from_documents (docs : Docs)
    (storage_context : StorageContext) : Call Index
| VectorStoreIndex_from_vector_store (vector_store : VectorStore)
    : Call Index
| storage_context_persist (index : Index) : Call unit
| as_query_engine (index : Index) : Call QueryEngine
| query_response (query_engine : QueryEngine) (query : string)
    : Call Answer.

(** One entry of the trace: the call and what came back. *)
Record Event `{Library} : Type := Ev {
  ev_ty : Type;
  ev_call : Call ev_ty;
  ev_result : Exn + ev_ty
}.

Arguments Ev {_ _} _ _.

Definition History `{Library} := list Event.

(** The world outside the repository: the environment variables as they
    were when the module was imported, and the answer to each external
    call, which may depend on everything that was called before. *)
Class World `{Library} : Type := {
  environ : string -> OptStr;
  respond : forall T : Type, Call T -> History -> Exn + T
}.

(** ** The monad of the router: a trace of calls, and exceptions *)

Inductive Outcome (A : Type) : Type :=
| Returned (a : A)
| Raised (e : Exn).

Arguments Returned {A} a.
Arguments Raised {A} e.

Section Monad.
Context `{W : World}.

(** A computation reads the history so far and gives its outcome and the
    events it added. *)
Definition M (A : Type) : Type := History -> Outcome A * list Event.

Definition ret {A : Type} (a : A) : M A := fun _ => (Returned a, []).

Definition raise {A : Type} (e : Exn) : M A := fun _ => (Raised e, []).

Definition bind {A B : Type} (m : M A) (f : A -> M B) : M B :=
  fun h =>
    match m h with
    | (Returned a, tr1) =>
        match f a (h ++ tr1) with
        | (o, tr2) => (o, tr1 ++ tr2)
        end
    | (Raised e, tr1) => (Raised e, tr1)
    end.

(** An external call: the world answers, the event is recorded, and an
    exception of the callee is an exception of the caller. *)
Definition call {T : Type} (c : Call T) : M T :=
  fun h =>
    match respond c h with
    | inr v => (Returned v, [Ev c (inr v)])
    | inl e => (Raised e, [Ev c (inl e)])
    end.
End Monad.

Declare Scope py_scope.
Delimit Scope py_scope with py.
Notation "x <- m ;; k" := (bind m (fun x => k))
  (at level 61, m at next level, right associativity) : py_scope.
Notation "m ;;; k" := (bind m (fun _ => k))
  (at level 61, right associativity) : py_scope.
Local Open Scope py_scope.

(** ** Class attributes

    The three classes of [vector_stores.py] and the data attributes their
    bodies assign.  The bodies run once, at import, and read the
    environment then. *)

Inductive PyClass : Type :=
| cls_BaseVectorStore
| cls_Weaviate
| cls_ChromaDB.

Definition class_name (c : PyClass) : string :=
  match c with
  | cls_BaseVectorStore => "BaseVectorStore"
  | cls_Weaviate => "Weaviate"
  | cls_ChromaDB => "ChromaDB"
  end.

(** [class Weaviate(BaseVectorStore)], [class ChromaDB(BaseVectorStore)]:
    the method resolution order of each class (below [abc.ABC], which has
    none of the attributes). *)
Definition mro (c : PyClass) : list PyClass :=
  match c with
  | cls_BaseVectorStore => [cls_BaseVectorStore]
  | cls_Weaviate => [cls_Weaviate; cls_BaseVectorStore]
  | cls_ChromaDB => [cls_ChromaDB; cls_BaseVectorStore]
  end.

Section ClassAttributes.
Context `{W : World}.

(** The namespace each class body leaves behind. *)
Definition class_dict (c : PyClass) : Dict OptStr :=
  match c with
  | cls_BaseVectorStore =>
      [("LFAI_INDEX_NAME", environ "LFAI_INDEX_NAME");
       ("OPENAI_API_KEY", environ "OPENAI_API_KEY")]
  | cls_Weaviate =>
      [("HOST", environ "WEAVIATE_HOST");
       ("PORT", environ "WEAVIATE_PORT")]
  | cls_ChromaDB =>
      [("HOST", environ "CHROMADB_HOST");
       ("PORT", environ "CHROMADB_PORT")]
  end.

(** The first class of the resolution order that has the attribute. *)
Fixpoint lookup_mro (cs : list PyClass) (attr : string) : option OptStr :=
  match cs with
  | [] => None
  | c :: cs' =>
      match dict_get (class_dict c) attr with
      | Some v => Some v
      | None => lookup_mro cs' attr
      end
  end.

(** [C.attr] *)
Definition class_getattr (c : PyClass) (attr : string) : M OptStr :=
  match lookup_mro (mro c) attr with
  | Some v => ret v
  | None => raise (AttributeError (class_name c) attr)
  end.

(** [d[k]] *)
Definition subscript {V : Type} (d : Dict V) (k : string) : M V :=
  match dict_get d k with
  | Some v => ret v
  | None => raise (KeyError k)
  end.

(** Reading a local variable that is assigned on some paths only. *)
Definition read_local {V : Type} (name : string) (v : option V) : M V :=
  match v with
  | Some x => ret x
  | None => raise (UnboundLocalError name)
  end.
End ClassAttributes.

(** ** [set_rag_context] *)

Section RagContext.
Context `{W : World}.

Definition set_rag_context : M unit :=
  cfg <- call get_model_config ;;
  let rag_llm := llm (rag cfg) in
  cfg' <- call get_model_config ;;
  rag_embed_model <- call (get_rag_embed_model cfg') ;;
  (* [llm_model_key] is bound on the first two branches only *)
  llm_and_key <-
    (if hub rag_llm =? "huggingface" then
       l <- call (HuggingFaceLLM (model rag_llm) (model rag_llm)) ;;
       ret (Some l, Some "model_name")
     else if hub rag_llm =? "openai" then
       l <- call (OpenAI (model rag_llm) (model rag_llm)) ;;
       ret (Some l, Some "model")
     else
       ret (None, None)) ;;
  let llm := fst llm_and_key in
  let llm_model_key := snd llm_and_key in
  embed_model <-
    (if hub rag_embed_model =? "huggingface" then
       e <- call (HuggingFaceEmbedding (model rag_embed_model)) ;;
       ret (inl e)
     else if hub rag_embed_model =? "openai" then
       e <- call (OpenAIEmbedding (model rag_embed_model)) ;;
       ret (inl e)
     else
       ret (inr "local")) ;;
  service_context <- call (ServiceContext_from_defaults llm embed_model) ;;
  call (set_global_service_context service_context) ;;;
  service_context_dict <- call (ServiceContext_to_dict service_context) ;;
  d_llm <- subscript service_context_dict "llm" ;;
  let llm_class := dict_get d_llm "class_name" in
  d_llm' <- subscript service_context_dict "llm" ;;
  key <- read_local "llm_model_key" llm_model_key ;;
  let llm_desc := [FStr llm_class; FLit ":"; FStr (dict_get d_llm' key)] in
  d_embed <- subscript service_context_dict "embed_model" ;;
  let embed_class := dict_get d_embed "class_name" in
  d_embed' <- subscript service_context_dict "embed_model" ;;
  let embedding_desc :=
    [FStr embed_class; FLit ":"; FStr (dict_get d_embed' "model_name")] in
  call (log (FLit "llm: " :: llm_desc)) ;;;
  call (log (FLit "embed_model: " :: embedding_desc)) ;;;
  call (log [FLit "service context: "; FDict service_context_dict]).
End RagContext.

(** ** The vector stores *)

(** [{'vector_store': ..., 'response': ..., 'elapsed': ...}] *)
Record BackendAnswer `{Library} : Type := {
  vector_store : string;
  response : Answer;
  elapsed : Elapsed
}.

Module BaseVectorStore.
Section Methods.
Context `{W : World}.

Definition index_from_docs (docs : Docs) (storage_context : StorageContext)
  : M Index :=
  call (VectorStoreIndex_from_documents docs storage_context).

Definition index_from_vector_store (vector_store : VectorStore) : M Index :=
  call (VectorStoreIndex_from_vector_store vector_store).

Definition persist_index (index : Index) : M unit :=
  call (storage_context_persist index).

Definition query_index (index : Index) (query : string) : M Answer :=
  query_engine <- call (as_query_engine index) ;;
  call (query_response query_engine query).
End Methods.
End BaseVectorStore.

Module Weaviate.
Section Methods.
Context `{W : World}.

Definition get_client : M WeaviateClient :=
  host <- class_getattr cls_Weaviate "HOST" ;;
  port <- class_getattr cls_Weaviate "PORT" ;;
  call (weaviate_Client
          ("http://" ++ py_format host ++ ":" ++ py_format port)).

Definition get_vector_store (index_name : OptStr) : M VectorStore :=
  client <- get_client ;;
  call (WeaviateVectorStore client index_name).

Definition get_storage_context (index_name : OptStr) : M StorageContext :=
  vector_store <- get_vector_store index_name ;;
  call (StorageContext_from_defaults vector_store).

Definition vectorize_docs (docs : Docs) (index_name : OptStr) : M unit :=
  index_name <-
    match index_name with
    | None => class_getattr cls_Weaviate "LFAI_INDEX_NAME"
    | Some _ => ret index_name
    end ;;
  storage_context <- get_storage_context index_name ;;
  index <- BaseVectorStore.index_from_docs docs storage_context ;;
  BaseVectorStore.persist_index index.

Definition process_query (prompt : string) : M BackendAnswer :=
  start <- call now ;;
  index_name <- class_getattr cls_Weaviate "LFAI_INDEX_NAME" ;;
  vector_store <- get_vector_store index_name ;;
  index <- BaseVectorStore.index_from_vector_store vector_store ;;
  response <- BaseVectorStore.query_index index prompt ;;
  elapsed <- call (get_elapsed start) ;;
  ret {| vector_store := "weaviate";
         response := response;
         elapsed := elapsed |}.
End Methods.
End Weaviate.

Module ChromaDB.
Section Methods.
Context `{W : World}.

Definition get_client : M ChromaClient :=
  host <- class_getattr cls_ChromaDB "HOST" ;;
  port <- class_getattr cls_ChromaDB "PORT" ;;
  call (chromadb_HttpClient host port).

Definition get_vector_store (index_name : OptStr) : M VectorStore :=
  client <- get_client ;;
  chroma_collection <- call (get_or_create_collection client index_name) ;;
  call (ChromaVectorStore chroma_collection).

Definition get_storage_context (index_name : OptStr) : M StorageContext :=
  vector_store <- get_vector_store index_name ;;
  call (StorageContext_from_defaults vector_store).

Definition vectorize_docs (docs : Docs) (index_name : OptStr) : M unit :=
  index_name <-
    match index_name with
    | None => class_getattr cls_ChromaDB "LFAI_INDEX_NAME"
    | Some _ => ret index_name
    end ;;
  storage_context <- get_storage_context index_name ;;
  index <- BaseVectorStore.index_from_docs docs storage_context ;;
  BaseVectorStore.persist_index index.

(** The index name is read through [Weaviate], as the source does. *)
Definition process_query (prompt : string) : M BackendAnswer :=
  start <- call now ;;
  index_name <- class_getattr cls_Weaviate "LFAI_INDEX_NAME" ;;
  vector_store <- get_vector_store index_name ;;
  index <- BaseVectorStore.index_from_vector_store vector_store ;;
  response <- BaseVectorStore.query_index index prompt ;;
  elapsed <- call (get_elapsed start) ;;
  ret {| vector_store := "chromadb";
         response := response;
         elapsed := elapsed |}.
End Methods.
End ChromaDB.

(** ** The router *)

(** The dict returned by [LLamaIndex.process_query]; [total_elapsed] is its
    key ['elapsed']. *)
Record QueryResult `{Library} : Type := {
  prompt : string;
  vdbs_processed : list string;
  responses : list BackendAnswer;
  total_elapsed : Elapsed
}.

Module LLamaIndex.
Section Methods.
Context `{W : World}.

Definition process_query (prompt : string) : M QueryResult :=
  set_rag_context ;;;
  start <- call now ;;
  let vdbs_processed := [] in
  let responses := [] in
  cfg <- call get_model_config ;;
  let vdbs := vector_stores (rag cfg) in
  acc <-
    (if py_in "weaviate" vdbs then
       response <- Weaviate.process_query prompt ;;
       ret (vdbs_processed ++ ["weaviate"], responses ++ [response])
     else ret (vdbs_processed, responses)) ;;
  let vdbs_processed := fst acc in
  let responses := snd acc in
  acc <-
    (if py_in "chromadb" vdbs then
       response <- ChromaDB.process_query prompt ;;
       ret (vdbs_processed ++ ["chromadb"], responses ++ [response])
     else ret (vdbs_processed, responses)) ;;
  let vdbs_processed := fst acc in
  let responses := snd acc in
  elapsed <- call (get_elapsed start) ;;
  ret {| prompt := prompt;
         vdbs_processed := vdbs_processed;
         responses := responses;
         total_elapsed := elapsed |}.

Definition vectorize_docs (docs : Docs) (vdbs : list string)
  : M (list string) :=
  set_rag_context ;;;
  call (log [FLit "vdbs: "; FList vdbs]) ;;;
  let vdbs_processed := [] in
  vdbs_processed <-
    (if py_in "weaviate" vdbs then
       Weaviate.vectorize_docs docs None ;;;
       ret (vdbs_processed ++ ["weaviate"])
     else ret vdbs_processed) ;;
  vdbs_processed <-
    (if py_in "chromadb" vdbs then
       ChromaDB.vectorize_docs docs None ;;;
       ret (vdbs_processed ++ ["chromadb"])
     else ret vdbs_processed) ;;
  call (log [FLit "vdbs processed: "; FList vdbs_processed]) ;;;
  ret vdbs_processed.
End Methods.
End LLamaIndex.

(** ** The schema classes of [backends/openai/types.py]

    A pydantic model is a record; its constructor takes one keyword
    argument per field, and a field that was declared with [= default] may
    be left out.  A Python [float] literal is kept as the rational it
    denotes. *)

Inductive Kwarg (A : Type) : Type :=
| Omitted
| Given (a : A).

Arguments Omitted {A}.
Arguments Given {A} a.

(** The value a field takes: the argument, or the declared default. *)
Definition field {A : Type} (default : A) (k : Kwarg A) : A :=
  match k with
  | Omitted => default
  | Given a => a
  end.

Module ChatFunction.
Record t : Type := {
  name : string;
  parameters : Dict string;
  description : string
}.
End ChatFunction.

Module ChatMessage.
Record t : Type := { role : string; content : string }.
End ChatMessage.

Module CompletionRequest.
Record t : Type := {
  model : string;
  prompt : string + list Z;
  stream : option bool;
  max_new_tokens : option Z;
  temperature : option Q
}.

Definition init (model : string) (prompt : string + list Z)
    (stream : Kwarg (option bool)) (max_new_tokens : Kwarg (option Z))
    (temperature : Kwarg (option Q)) : t :=
  {| model := model;
     prompt := prompt;
     stream := field (Some false) stream;
     max_new_tokens := field (Some 16%Z) max_new_tokens;
     temperature := field (Some (1 # 1)%Q) temperature |}.
End CompletionRequest.

Module ChatCompletionRequest.
Record t : Type := {
  model : string;
  messages : list ChatMessage.t;
  functions : option (list ChatFunction.t);
  temperature : option Q;
  stream : option bool;
  stop : option string;
  max_tokens : option Z
}.

Definition init (model : string) (messages : list ChatMessage.t)
    (functions : Kwarg (option (list ChatFunction.t)))
    (temperature : Kwarg (option Q)) (stream : Kwarg (option bool))
    (stop : Kwarg (option string)) (max_tokens : Kwarg (option Z)) : t :=
  {| model := model;
     messages := messages;
     functions := field None functions;
     temperature := field (Some (1 # 1)%Q) temperature;
     stream := field (Some false) stream;
     stop := field None stop;
     max_tokens := field (Some 128%Z) max_tokens |}.
End ChatCompletionRequest.

Module ModelResponseModel.
Record t : Type := {
  id : string;
  object : string;
  created : Z;
  owned_by : string
}.

Definition init (id : string) (object : Kwarg string) (created : Kwarg Z)
    (owned_by : Kwarg string) : t :=
  {| id := id;
     object := field "model" object;
     created := field 0%Z created;
     owned_by := field "leapfrogai" owned_by |}.
End ModelResponseModel.

Module ModelResponse.
Record t : Type := {
  object : string;
  data : list ModelResponseModel.t
}.

Definition init (object : Kwarg string)
    (data : Kwarg (list ModelResponseModel.t)) : t :=
  {| object := field "list" object;
     data := field [] data |}.
End ModelResponse.

(** ** What a trace shows *)

Section Observations.
Context `{L : Library}.

(** The exception an external call ended with, if it did. *)
Definition failure_of (ev : Event) : option Exn :=
  match ev_result ev with
  | inl e => Some e
  | inr _ => None
  end.

(** A backend is contacted when its client is constructed. *)
Definition client_of {T : Type} (c : Call T) : list string :=
  match c with
  | weaviate_Client _ => ["weaviate"]
  | chromadb_HttpClient _ _ => ["chromadb"]
  | _ => []
  end.

Definition contacted (tr : list Event) : list string :=
  flat_map (fun ev => client_of (ev_call ev)) tr.

(** The index names handed to the backends' vector-store lookups. *)
Definition index_name_of {T : Type} (c : Call T) : list (string * OptStr) :=
  match c with
  | WeaviateVectorStore _ n => [("weaviate", n)]
  | get_or_create_collection _ n => [("chromadb", n)]
  | _ => []
  end.

Definition index_names (tr : list Event) : list (string * OptStr) :=
  flat_map (fun ev => index_name_of (ev_call ev)) tr.

(** The readings of the clock: what [now()] returned. *)
Definition clock_read (ev : Event) : list Time :=
  match ev with
  | Ev c r =>
      match c in Call T return Exn + T -> list Time with
      | now => fun r => match r with inr t => [t] | inl _ => [] end
      | _ => fun _ => []
      end r
  end.

Definition clock_reads (tr : list Event) : list Time :=
  flat_map clock_read tr.

(** The measurements: [get_elapsed(start)] and what it returned. *)
Definition measurement (ev : Event) : list (Time * Elapsed) :=
  match ev with
  | Ev c r =>
      match c in Call T return Exn + T -> list (Time * Elapsed) with
      | get_elapsed start =>
          fun r => match r with inr e => [(start, e)] | inl _ => [] end
      | _ => fun _ => []
      end r
  end.

Definition measurements (tr : list Event) : list (Time * Elapsed) :=
  flat_map measurement tr.

(** The queries that were answered: the query text and the answer. *)
Definition answered (ev : Event) : list (string * Answer) :=
  match ev with
  | Ev c r =>
      match c in Call T return Exn + T -> list (string * Answer) with
      | query_response _ q =>
          fun r => match r with inr a => [(q, a)] | inl _ => [] end
      | _ => fun _ => []
      end r
  end.

Definition answers (tr : list Event) : list (string * Answer) :=
  flat_map answered tr.

(** The index persisted by a completed ingestion. *)
Definition persisted (ev : Event) : list Index :=
  match ev with
  | Ev c r =>
      match c in Call T return Exn + T -> list Index with
      | storage_context_persist i =>
          fun r => match r with inr _ => [i] | inl _ => [] end
      | _ => fun _ => []
      end r
  end.

Definition persists (tr : list Event) : list Index :=
  flat_map persisted tr.

(** The calls [set_rag_context] makes; none of them reaches a backend or
    the clock. *)
Definition context_call {T : Type} (c : Call T) : bool :=
  match c with
  | get_model_config | get_rag_embed_model _
  | HuggingFaceLLM _ _ | OpenAI _ _
  | HuggingFaceEmbedding _ | OpenAIEmbedding _
  | ServiceContext_from_defaults _ _ | set_global_service_context _
  | ServiceContext_to_dict _ | log _ => true
  | _ => false
  end.

Definition context_event (ev : Event) : bool := context_call (ev_call ev).
End Observations.

(** ** The backends the router knows, in the order it tries them *)

Definition supported : list string := ["weaviate"; "chromadb"].

(** The supported backends that occur in the configured list. *)
Definition enabled (vdbs : list string) : list string :=
  filter (fun b => py_in b vdbs) supported.

(** ** The ingestion entry point of a backend, by name *)

Section EntryPoints.
Context `{W : World}.

(** The call the router makes for the backend named [b].  Only the two
    supported names have an entry point; the last branch is there to make
    the function total and is never taken on an enabled backend. *)
Definition ingest (docs : Docs) (b : string) : M unit :=
  if b =? "weaviate" then Weaviate.vectorize_docs docs None
  else if b =? "chromadb" then ChromaDB.vectorize_docs docs None
  else raise (LibraryError "no such backend").

(** The query entry point of the backend named [b], likewise. *)
Definition query (prompt : string) (b : string) : M BackendAnswer :=
  if b =? "weaviate" then Weaviate.process_query prompt
  else if b =? "chromadb" then ChromaDB.process_query prompt
  else raise (LibraryError "no such backend").
End EntryPoints.

(** ** A concrete world, to run the router on

    Every opaque object is [tt]; the clock is the number of external calls
    made so far; the answer to a query is built from the query.  The
    configured backend list and the state of the managed backend are the
    two knobs. *)

#[local] Instance lab_library : Library := {
  LLM := unit;
  EmbedModel := unit;
  ServiceContext := unit;
  WeaviateClient := unit;
  ChromaClient := unit;
  Collection := unit;
  VectorStore := unit;
  StorageContext := unit;
  Index := unit;
  QueryEngine := unit;
  Docs := list string;
  Answer := string;
  Time := Z;
  Elapsed := Z
}.

Definition lab_config (vdbs : list string) : ModelConfig :=
  {| rag := {| llm := {| hub := "openai"; model := "gpt-3.5-turbo" |};
               vector_stores := vdbs |} |}.

Definition lab_environ (name : string) : OptStr :=
  if name =? "LFAI_INDEX_NAME" then Some "Leapfrog"
  else if name =? "WEAVIATE_HOST" then Some "weaviate.local"
  else if name =? "WEAVIATE_PORT" then Some "8080"
  else if name =? "CHROMADB_HOST" then Some "chroma.local"
  else if name =? "CHROMADB_PORT" then Some "8000"
  else None.

Definition lab_respond (vdbs : list string) (chroma_up : bool)
    (T : Type) (c : Call T) (h : History) : Exn + T :=
  match c in Call T return Exn + T with
  | get_model_config => inr (lab_config vdbs)
  | get_rag_embed_model _ =>
      inr {| hub := "huggingface"; model := "bge-small" |}
  | HuggingFaceLLM _ _ => inr tt
  | OpenAI _ _ => inr tt
  | HuggingFaceEmbedding _ => inr tt
  | OpenAIEmbedding _ => inr tt
  | ServiceContext_from_defaults _ _ => inr tt
  | set_global_service_context _ => inr tt
  | ServiceContext_to_dict _ =>
      inr [("llm", [("class_name", "OpenAI"); ("model", "gpt-3.5-turbo")]);
           ("embed_model", [("class_name", "HuggingFaceEmbedding");
                            ("model_name", "bge-small")])]
  | log _ => inr tt
  | now => inr (Z.of_nat (List.length h))
  | get_elapsed start => inr (Z.of_nat (List.length h) - start)%Z
  | weaviate_Client _ => inr tt
  | WeaviateVectorStore _ _ => inr tt
  | chromadb_HttpClient _ _ =>
      if chroma_up then inr tt else inl (LibraryError "connection refused")
  | get_or_create_collection _ _ => inr tt
  | ChromaVectorStore _ => inr tt
  | StorageContext_from_defaults _ => inr tt
  | VectorStoreIndex_from_documents _ _ => inr tt
  | VectorStoreIndex_from_vector_store _ => inr tt
  | storage_context_persist _ => inr tt
  | as_query_engine _ => inr tt
  | query_response _ q => inr ("answer to " ++ q)%string
  end.

Definition lab_world (vdbs : list string) (chroma_up : bool)
  : @World lab_library :=
  {| environ := lab_environ; respond := lab_respond vdbs chroma_up |}.

(** ** Properties of worlds and of computations *)

Section Properties.
Context `{W : World}.

(** No external call raises. *)
Definition reliable : Prop :=
  forall (T : Type) (c : Call T) (h : History),
    exists v : T, respond c h = inr v.

(** The configured language-model hub is one [set_rag_context] has a
    branch for. *)
Definition llm_hub_known : Prop :=
  forall (h : History) (cfg : ModelConfig),
    respond get_model_config h = inr cfg ->
    hub (llm (rag cfg)) = "huggingface" \/ hub (llm (rag cfg)) = "openai".

(** The dict of a service context describes both of its models. *)
Definition describes_models : Prop :=
  forall (sc : ServiceContext) (h : History) (d : Dict (Dict string)),
    respond (ServiceContext_to_dict sc) h = inr d ->
    dict_get d "llm" <> None /\ dict_get d "embed_model" <> None.

(** The configured backend list is [vdbs]. *)
Definition configured (vdbs : list string) : Prop :=
  forall (h : History) (cfg : ModelConfig),
    respond get_model_config h = inr cfg ->
    vector_stores (rag cfg) = vdbs.

(** The computation returns when it is started from history [h]. *)
Definition succeeds {A : Type} (m : M A) (h : History) : Prop :=
  exists (a : A) (tr : list Event), m h = (Returned a, tr).

(** Every event a computation adds satisfies [P]. *)
Definition emits_only {A : Type} (P : Event -> Prop) (m : M A) : Prop :=
  forall h : History, Forall P (snd (m h)).

(** A trace in which an external failure, if there is one, is the last
    event and is the outcome. *)
Definition orderly {A : Type} (o : Outcome A) (tr : list Event) : Prop :=
  Forall (fun ev => failure_of ev = None) tr \/
  exists (pre : list Event) (ev : Event) (e : Exn),
    tr = pre ++ [ev] /\
    Forall (fun ev' => failure_of ev' = None) pre /\
    failure_of ev = Some e /\
    o = Raised e.

Definition propagates {A : Type} (m : M A) : Prop :=
  forall h : History, orderly (fst (m h)) (snd (m h)).

(** The client of the self-hosted backend is given the URL made of the
    environment's host and port; the client of the managed backend is
    given the environment's host and port. *)
Definition addressed_from_environ (ev : Event) : Prop :=
  match ev_call ev with
  | weaviate_Client url =>
      url = ("http://" ++ py_format (environ "WEAVIATE_HOST") ++ ":"
               ++ py_format (environ "WEAVIATE_PORT"))%string
  | chromadb_HttpClient host port =>
      host = environ "CHROMADB_HOST" /\ port = environ "CHROMADB_PORT"
  | _ => True
  end.

(** A vector-store lookup is given the index name of the environment. *)
Definition names_the_index (ev : Event) : Prop :=
  forall (b : string) (n : OptStr),
    In (b, n) (index_name_of (ev_call ev)) ->
    n = environ "LFAI_INDEX_NAME".

(** The entry points of the backends named in [bs] ran to completion one
    after the other, from history [h], adding the events [tr]. *)
Inductive ingested (docs : Docs)
  : list string -> History -> list Event -> Prop :=
| ingested_nil (h : History) : ingested docs [] h []
| ingested_cons (b : string) (bs : list string) (h : History)
    (tr1 tr2 : list Event) :
    ingest docs b h = (Returned tt, tr1) ->
    ingested docs bs (h ++ tr1) tr2 ->
    ingested docs (b :: bs) h (tr1 ++ tr2).

(** The query entry points of the backends named in [bs] ran to completion
    one after the other, from history [h], adding the events [tr] and
    returning the answers [rs], one per backend. *)
Inductive queried (prompt : string)
  : list string -> History -> list Event -> list BackendAnswer -> Prop :=
| queried_nil (h : History) : queried prompt [] h [] []
| queried_cons (b : string) (bs : list string) (h : History)
    (tr1 tr2 : list Event) (r : BackendAnswer) (rs : list BackendAnswer) :
    query prompt b h = (Returned r, tr1) ->
    queried prompt bs (h ++ tr1) tr2 rs ->
    queried prompt (b :: bs) h (tr1 ++ tr2) (r :: rs).
End Properties.

(** ** More of what a trace shows *)

Section MoreObservations.
Context `{L : Library}.

(** The indexes built from documents: the documents and the index. *)
Definition built_from (ev : Event) : list (Docs * Index) :=
  match ev with
  | Ev c r =>
      match c in Call T return Exn + T -> list (Docs * Index) with
      | VectorStoreIndex_from_documents docs _ =>
          fun r => match r with inr i => [(docs, i)] | inl _ => [] end
      | _ => fun _ => []
      end r
  end.

Definition built (tr : list Event) : list (Docs * Index) :=
  flat_map built_from tr.

(** The language models constructed: class, tokenizer name, model name. *)
Definition llm_of {T : Type} (c : Call T) : list (string * string * string) :=
  match c with
  | HuggingFaceLLM t m => [("HuggingFaceLLM", t, m)]
  | OpenAI t m => [("OpenAI", t, m)]
  | _ => []
  end.

Definition llms_built (tr : list Event) : list (string * string * string) :=
  flat_map (fun ev => llm_of (ev_call ev)) tr.

(** The embedding classes constructed: class and model name. *)
Definition embedding_of {T : Type} (c : Call T) : list (string * string) :=
  match c with
  | HuggingFaceEmbedding m => [("HuggingFaceEmbedding", m)]
  | OpenAIEmbedding m => [("OpenAIEmbedding", m)]
  | _ => []
  end.

Definition embeddings_built (tr : list Event) : list (string * string) :=
  flat_map (fun ev => embedding_of (ev_call ev)) tr.

(** The arguments of [ServiceContext.from_defaults] and what it returned. *)
Definition context_of (ev : Event)
  : list (option LLM * (EmbedModel + string) * ServiceContext) :=
  match ev with
  | Ev c r =>
      match c in Call T
            return Exn + T
                   -> list (option LLM * (EmbedModel + string)
                            * ServiceContext) with
      | ServiceContext_from_defaults l e =>
          fun r => match r with inr sc => [(l, e, sc)] | inl _ => [] end
      | _ => fun _ => []
      end r
  end.

Definition contexts_built (tr : list Event)
  : list (option LLM * (EmbedModel + string) * ServiceContext) :=
  flat_map context_of tr.

(** The service contexts handed to [set_global_service_context]. *)
Definition installed_by {T : Type} (c : Call T) : list ServiceContext :=
  match c with
  | set_global_service_context sc => [sc]
  | _ => []
  end.

Definition installed (tr : list Event) : list ServiceContext :=
  flat_map (fun ev => installed_by (ev_call ev)) tr.

(** The lines handed to [log]. *)
Definition logged_by {T : Type} (c : Call T) : list FString :=
  match c with
  | log msg => [msg]
  | _ => []
  end.

Definition logged (tr : list Event) : list FString :=
  flat_map (fun ev => logged_by (ev_call ev)) tr.

(** No external call of the trace raised. *)
Definition unfailing (tr : list Event) : Prop :=
  Forall (fun ev => failure_of ev = None) tr.

(** The event does not construct a client of the managed backend. *)
Definition not_chroma (ev : Event) : Prop :=
  ~ In "chromadb" (client_of (ev_call ev)).
End MoreObservations.

(** ** More properties of worlds and of computations *)

Section MoreProperties.
Context `{W : World}.

(** The configured language-model hub is one [set_rag_context] has no
    branch for. *)
Definition llm_hub_unknown : Prop :=
  forall (h : History) (cfg : ModelConfig),
    respond get_model_config h = inr cfg ->
    hub (llm (rag cfg)) <> "huggingface" /\ hub (llm (rag cfg)) <> "openai".

(** The configured embedding hub is one [set_rag_context] has no branch
    for. *)
Definition embed_hub_unknown : Prop :=
  forall (cfg : ModelConfig) (h : History) (em : ModelSpec),
    respond (get_rag_embed_model cfg) h = inr em ->
    hub em <> "huggingface" /\ hub em <> "openai".

(** The dict of a service context has its ['llm'] entry. *)
Definition describes_llm : Prop :=
  forall (sc : ServiceContext) (h : History) (d : Dict (Dict string)),
    respond (ServiceContext_to_dict sc) h = inr d ->
    dict_get d "llm" <> None.


(** Started from history [h], the computation ends with an outcome and a
    trace that satisfy [Q]. *)
Definition delivers {A : Type} (m : M A) (h : History)
    (Q : Outcome A -> list Event -> Prop) : Prop :=
  Q (fst (m h)) (snd (m h)).

End MoreProperties.

(** ** A concrete world with other hubs

    The world of [lab_world] with both backends configured and up, but
    with the language-model hub and the embedding hub given. *)

Definition hub_respond (llm_hub embed_hub : string)
    (T : Type) (c : Call T) (h : History) : Exn + T :=
  match c in Call T return Call T -> Exn + T with
  | get_model_config =>
      fun _ =>
        inr {| rag := {| llm := {| hub := llm_hub; model := "tiny-llm" |};
                         vector_stores := ["weaviate"; "chromadb"] |} |}
  | get_rag_embed_model _ =>
      fun _ => inr {| hub := embed_hub; model := "tiny-embed" |}
  | _ => fun c' => lab_respond ["weaviate"; "chromadb"] true c' h
  end c.

Definition hub_world (llm_hub embed_hub : string) : @World lab_library :=
  {| environ := lab_environ; respond := hub_respond llm_hub embed_hub |}.

(** * Proofs *)

(** ** Sequencing *)

Section MonadFacts.
Context `{W : World}.

Lemma ret_returned (A : Type) (a b : A) (h : History) (tr : list Event) :
  ret a h = (Returned b, tr) -> b = a /\ tr = [].
Proof. unfold ret; intros E; inversion E; auto. Qed.

Lemma call_returned (T : Type) (c : Call T) (h : History) (v : T)
    (tr : list Event) :
  call c h = (Returned v, tr) ->
  respond c h = inr v /\ tr = [Ev c (inr v)].
Proof.
  unfold call; destruct (respond c h) as [e | v'];
    intros E; inversion E; auto.
Qed.

Lemma bind_returned (A B : Type) (m : M A) (f : A -> M B) (h : History)
    (b : B) (tr : list Event) :
  bind m f h = (Returned b, tr) ->
  exists (a : A) (tr1 tr2 : list Event),
    m h = (Returned a, tr1) /\
    f a (h ++ tr1) = (Returned b, tr2) /\
    tr = tr1 ++ tr2.
Proof.
  unfold bind; destruct (m h) as [[a | e] tr1]; [| discriminate].
  destruct (f a (h ++ tr1)) as [o tr2] eqn:Ef.
  intros E; inversion E; subst.
  exists a, tr1, tr2; auto.
Qed.

Lemma call_run (T : Type) (c : Call T) (h : History) (v : T) :
  respond c h = inr v -> call c h = (Returned v, [Ev c (inr v)]).
Proof. intros E; unfold call; rewrite E; reflexivity. Qed.

Lemma class_getattr_returned (c : PyClass) (attr : string) (h : History)
    (v : OptStr) (tr : list Event) :
  class_getattr c attr h = (Returned v, tr) ->
  lookup_mro (mro c) attr = Some v /\ tr = [].
Proof.
  unfold class_getattr; destruct (lookup_mro (mro c) attr) as [v' |].
  - intros E; apply ret_returned in E; destruct E; subst; auto.
  - discriminate.
Qed.

Lemma subscript_returned (V : Type) (d : Dict V) (k : string) (h : History)
    (v : V) (tr : list Event) :
  subscript d k h = (Returned v, tr) -> dict_get d k = Some v /\ tr = [].
Proof.
  unfold subscript; destruct (dict_get d k) as [v' |].
  - intros E; apply ret_returned in E; destruct E; subst; auto.
  - discriminate.
Qed.
End MonadFacts.

(** Take a returning run apart, one statement at a time. *)
Tactic Notation "unbind" hyp(H) "as"
    ident(a) ident(t1) ident(t2) ident(H1) ident(H2) :=
  apply bind_returned in H;
  destruct H as (a & t1 & t2 & H1 & H2 & ?);
  subst.

Ltac uncall H :=
  let E := fresh "E" in
  apply call_returned in H; destruct H as [E ->].

Ltac unret H :=
  apply ret_returned in H; destruct H as [-> ->].

Ltac unattr H :=
  let E := fresh "A" in
  apply class_getattr_returned in H; destruct H as [E ->];
  cbn in E; inversion E; subst; clear E.

Ltac run_apart :=
  repeat match goal with
    | H : bind _ _ _ = (Returned _, _) |- _ =>
        let a := fresh "x" in
        let t1 := fresh "tr" in
        let t2 := fresh "tr" in
        let H1 := fresh "R" in
        let H2 := fresh "R" in
        unbind H as a t1 t2 H1 H2
    | H : call _ _ = (Returned _, _) |- _ => uncall H
    | H : ret _ _ = (Returned _, _) |- _ => unret H
    | H : class_getattr _ _ _ = (Returned _, _) |- _ => unattr H
    end.

(** ** The query entry points of the backends *)

Section BackendQueries.
Context `{W : World}.

(** What a returned answer of the self-hosted backend says about the
    run that produced it. *)
Lemma Weaviate_process_query_returned (q : string) (h : History)
    (a : BackendAnswer) (tr : list Event) :
  Weaviate.process_query q h = (Returned a, tr) ->
  vector_store a = "weaviate" /\
  contacted tr = ["weaviate"] /\
  index_names tr = [("weaviate", environ "LFAI_INDEX_NAME")] /\
  answers tr = [(q, response a)] /\
  exists start : Time,
    clock_reads tr = [start] /\ measurements tr = [(start, elapsed a)].
Proof.
  unfold Weaviate.process_query, Weaviate.get_vector_store,
    Weaviate.get_client, BaseVectorStore.index_from_vector_store,
    BaseVectorStore.query_index.
  intros R; run_apart; cbn.
  repeat split; eauto.
Qed.

Lemma ChromaDB_process_query_returned (q : string) (h : History)
    (a : BackendAnswer) (tr : list Event) :
  ChromaDB.process_query q h = (Returned a, tr) ->
  vector_store a = "chromadb" /\
  contacted tr = ["chromadb"] /\
  index_names tr = [("chromadb", environ "LFAI_INDEX_NAME")] /\
  answers tr = [(q, response a)] /\
  exists start : Time,
    clock_reads tr = [start] /\ measurements tr = [(start, elapsed a)].
Proof.
  unfold ChromaDB.process_query, ChromaDB.get_vector_store,
    ChromaDB.get_client, BaseVectorStore.index_from_vector_store,
    BaseVectorStore.query_index.
  intros R; run_apart; cbn.
  repeat split; eauto.
Qed.
End BackendQueries.

(** ** What a computation may emit *)

Section Emission.
Context `{W : World}.
Variable P : Event -> Prop.

Lemma emits_ret (A : Type) (a : A) : emits_only P (ret a).
Proof. intros h; constructor. Qed.

Lemma emits_raise (A : Type) (e : Exn) : emits_only P (raise (A := A) e).
Proof. intros h; constructor. Qed.

Lemma emits_call (T : Type) (c : Call T) :
  (forall r : Exn + T, P (Ev c r)) -> emits_only P (call c).
Proof.
  intros Hc h; unfold call.
  destruct (respond c h); cbn; auto.
Qed.

Lemma emits_bind (A B : Type) (m : M A) (f : A -> M B) :
  emits_only P m ->
  (forall a : A,
      (exists (h : History) (tr : list Event), m h = (Returned a, tr)) ->
      emits_only P (f a)) ->
  emits_only P (bind m f).
Proof.
  intros Hm Hf h; unfold bind.
  specialize (Hm h); destruct (m h) as [[a | e] tr1] eqn:Em; cbn in *; auto.
  assert (Ha : emits_only P (f a)) by (apply Hf; eauto).
  specialize (Ha (h ++ tr1)); destruct (f a (h ++ tr1)) as [o tr2].
  cbn in *; apply Forall_app; auto.
Qed.

Lemma emits_class_getattr (c : PyClass) (attr : string) :
  emits_only P (class_getattr c attr).
Proof.
  unfold class_getattr; destruct (lookup_mro (mro c) attr);
    [apply emits_ret | apply emits_raise].
Qed.

Lemma emits_subscript (V : Type) (d : Dict V) (k : string) :
  emits_only P (subscript d k).
Proof.
  unfold subscript; destruct (dict_get d k);
    [apply emits_ret | apply emits_raise].
Qed.

Lemma emits_read_local (V : Type) (name : string) (v : option V) :
  emits_only P (read_local name v).
Proof. destruct v; [apply emits_ret | apply emits_raise]. Qed.

Lemma emits_if (A : Type) (b : bool) (m1 m2 : M A) :
  emits_only P m1 -> emits_only P m2 ->
  emits_only P (if b then m1 else m2).
Proof. destruct b; auto. Qed.
End Emission.

(** Walk through a computation, leaving one goal per external call. *)
Ltac emission :=
  repeat first
    [ apply emits_ret
    | apply emits_raise
    | apply emits_class_getattr
    | apply emits_subscript
    | apply emits_read_local
    | apply emits_if
    | apply emits_bind;
      [| let R := fresh "R" in intros ? (? & ? & R); try unattr R ]
    | apply emits_call; intros ? ].

Section ContextEvents.
Context `{W : World}.

Lemma set_rag_context_emits :
  emits_only (fun ev => context_event ev = true) set_rag_context.
Proof. unfold set_rag_context; emission; reflexivity. Qed.

(** Context events show nothing of the backends or of the clock. *)
Lemma context_events_silent (tr : list Event) :
  Forall (fun ev => context_event ev = true) tr ->
  contacted tr = [] /\ index_names tr = [] /\ answers tr = [] /\
  clock_reads tr = [] /\ measurements tr = [] /\ persists tr = [].
Proof.
  induction 1 as [| ev tr Hev _ IH]; [cbn; auto 6 |].
  destruct IH as (I1 & I2 & I3 & I4 & I5 & I6).
  unfold contacted, index_names, answers, clock_reads, measurements,
    persists in *.
  cbn [flat_map]; rewrite I1, I2, I3, I4, I5, I6.
  destruct ev as [T c r]; unfold context_event in Hev; cbn in Hev.
  destruct c; try discriminate; cbn; auto 6.
Qed.

Lemma set_rag_context_silent (h : History) :
  let tr := snd (set_rag_context h) in
  contacted tr = [] /\ index_names tr = [] /\ answers tr = [] /\
  clock_reads tr = [] /\ measurements tr = [] /\ persists tr = [].
Proof. apply context_events_silent, set_rag_context_emits. Qed.
End ContextEvents.

(** ** The ingestion entry points of the backends *)

Section BackendIngestion.
Context `{W : World}.

Lemma Weaviate_vectorize_docs_returned (docs : Docs) (h : History)
    (u : unit) (tr : list Event) :
  Weaviate.vectorize_docs docs None h = (Returned u, tr) ->
  contacted tr = ["weaviate"] /\
  index_names tr = [("weaviate", environ "LFAI_INDEX_NAME")] /\
  exists index : Index, persists tr = [index].
Proof.
  unfold Weaviate.vectorize_docs, Weaviate.get_storage_context,
    Weaviate.get_vector_store, Weaviate.get_client,
    BaseVectorStore.index_from_docs, BaseVectorStore.persist_index.
  intros R; run_apart; cbn.
  repeat split; eauto.
Qed.

Lemma ChromaDB_vectorize_docs_returned (docs : Docs) (h : History)
    (u : unit) (tr : list Event) :
  ChromaDB.vectorize_docs docs None h = (Returned u, tr) ->
  contacted tr = ["chromadb"] /\
  index_names tr = [("chromadb", environ "LFAI_INDEX_NAME")] /\
  exists index : Index, persists tr = [index].
Proof.
  unfold ChromaDB.vectorize_docs, ChromaDB.get_storage_context,
    ChromaDB.get_vector_store, ChromaDB.get_client,
    BaseVectorStore.index_from_docs, BaseVectorStore.persist_index.
  intros R; run_apart; cbn.
  repeat split; eauto.
Qed.
End BackendIngestion.

(** ** The router, on a run that returns *)

(** Open the two guarded backend calls of a router body. *)
Ltac open_backends :=
  repeat match goal with
    | R : bind _ _ _ = (Returned _, _) |- _ =>
        let a := fresh "a" in
        let t := fresh "t" in
        let t' := fresh "t" in
        let R1 := fresh "R" in
        let R2 := fresh "R" in
        unbind R as a t t' R1 R2
    | R : ret _ _ = (Returned _, _) |- _ => unret R
    | R : Weaviate.process_query _ _ = (Returned _, _) |- _ =>
        apply Weaviate_process_query_returned in R;
        destruct R as (? & ? & ? & ? & ? & ? & ?)
    | R : ChromaDB.process_query _ _ = (Returned _, _) |- _ =>
        apply ChromaDB_process_query_returned in R;
        destruct R as (? & ? & ? & ? & ? & ? & ?)
    end.

Ltac read_trace :=
  unfold contacted, index_names, answers, clock_reads, measurements,
    persists in *;
  repeat rewrite flat_map_app;
  repeat match goal with E : flat_map _ _ = _ |- _ => rewrite E end;
  cbn;
  repeat match goal with E : vector_store _ = _ |- _ => rewrite E end.

Section RouterRuns.
Context `{W : World}.

Lemma LLamaIndex_process_query_returned (q : string) (h : History)
    (r : QueryResult) (tr : list Event) :
  LLamaIndex.process_query q h = (Returned r, tr) ->
  exists (h' : History) (cfg : ModelConfig) (start : Time)
         (starts : list Time),
    respond get_model_config h' = inr cfg /\
    prompt r = q /\
    vdbs_processed r = enabled (vector_stores (rag cfg)) /\
    map vector_store (responses r) = enabled (vector_stores (rag cfg)) /\
    contacted tr = enabled (vector_stores (rag cfg)) /\
    index_names tr =
      map (fun b => (b, environ "LFAI_INDEX_NAME"))
          (enabled (vector_stores (rag cfg))) /\
    answers tr = map (fun a => (q, response a)) (responses r) /\
    clock_reads tr = start :: starts /\
    measurements tr =
      combine starts (map elapsed (responses r))
        ++ [(start, total_elapsed r)] /\
    List.length starts = List.length (responses r).
Proof.
  unfold LLamaIndex.process_query; intros R.
  unbind R as u tr0 tr1 R0 R.
  pose proof (set_rag_context_silent h) as S; rewrite R0 in S; cbn in S.
  destruct S as (S1 & S2 & S3 & S4 & S5 & _).
  unbind R as start tr2 tr3 Rnow R; uncall Rnow.
  unbind R as cfg tr4 tr5 Rcfg R; uncall Rcfg.
  unbind R as acc1 trw tr6 Rw R.
  unbind R as acc2 trc tr7 Rc R.
  unbind R as el tr8 tr9 Rel R; uncall Rel; unret R.
  exists ((h ++ tr0) ++ [Ev now (inr start)]), cfg, start.
  unfold enabled, supported; cbn [filter].
  unfold contacted, index_names, answers, clock_reads, measurements in *.
  repeat rewrite flat_map_app; rewrite S1, S2, S3, S4, S5.
  cbn [prompt vdbs_processed responses total_elapsed].
  destruct (py_in "weaviate" (vector_stores (rag cfg)));
    destruct (py_in "chromadb" (vector_stores (rag cfg)));
    open_backends; read_trace;
    eexists; repeat split; try eassumption; try reflexivity.
Qed.
End RouterRuns.

(** ** The ingestion router, on a run that returns *)

Section IngestionRuns.
Context `{W : World}.

(** One guarded ingestion step of the router. *)
Lemma guarded_ingest_returned (docs : Docs) (b : string) (on : bool)
    (acc acc' : list string) (h : History) (tr : list Event) :
  (if on then bind (ingest docs b) (fun _ => ret (acc ++ [b]))
   else ret acc) h = (Returned acc', tr) ->
  acc' = acc ++ (if on then [b] else []) /\
  ingested docs (if on then [b] else []) h tr.
Proof.
  destruct on; intros R.
  - unbind R as u t t' R1 R2; unret R2; destruct u.
    split; [reflexivity |].
    apply ingested_cons; [assumption | constructor].
  - unret R; split; [symmetry; apply app_nil_r | constructor].
Qed.

Lemma ingested_app (docs : Docs) (bs1 bs2 : list string) (h : History)
    (tr1 tr2 : list Event) :
  ingested docs bs1 h tr1 -> ingested docs bs2 (h ++ tr1) tr2 ->
  ingested docs (bs1 ++ bs2) h (tr1 ++ tr2).
Proof.
  induction 1 as [h | b bs h t1 t2 Hb Hbs IH]; intros H2; cbn.
  - rewrite app_nil_r in H2; assumption.
  - rewrite <- app_assoc; apply ingested_cons; [assumption |].
    apply IH; rewrite <- app_assoc; assumption.
Qed.

Lemma ingested_observed (docs : Docs) (bs : list string) (h : History)
    (tr : list Event) :
  ingested docs bs h tr ->
  Forall (fun b => In b supported) bs ->
  contacted tr = bs /\
  index_names tr = map (fun b => (b, environ "LFAI_INDEX_NAME")) bs /\
  List.length (persists tr) = List.length bs.
Proof.
  induction 1 as [h | b bs h t1 t2 Hb Hbs IH]; intros Hs.
  - cbn; auto.
  - inversion Hs as [| ? ? Hin Hs']; subst.
    destruct (IH Hs') as (C & I & P).
    unfold contacted, index_names, persists in *.
    repeat rewrite flat_map_app; rewrite length_app, C, I, P.
    destruct Hin as [<- | [<- | []]]; cbn in Hb.
    + apply Weaviate_vectorize_docs_returned in Hb.
      destruct Hb as (C1 & I1 & i & P1).
      unfold contacted, index_names, persists in *.
      rewrite C1, I1, P1; cbn; auto.
    + apply ChromaDB_vectorize_docs_returned in Hb.
      destruct Hb as (C1 & I1 & i & P1).
      unfold contacted, index_names, persists in *.
      rewrite C1, I1, P1; cbn; auto.
Qed.

Lemma enabled_supported (vdbs : list string) :
  Forall (fun b => In b supported) (enabled vdbs).
Proof.
  unfold enabled; apply Forall_forall; intros b Hb.
  apply filter_In in Hb; tauto.
Qed.

Lemma enabled_split (vdbs : list string) :
  enabled vdbs =
    (if py_in "weaviate" vdbs then ["weaviate"] else [])
      ++ (if py_in "chromadb" vdbs then ["chromadb"] else []).
Proof.
  unfold enabled, supported; cbn [filter].
  destruct (py_in "weaviate" vdbs), (py_in "chromadb" vdbs); reflexivity.
Qed.

Lemma LLamaIndex_vectorize_docs_returned (docs : Docs)
    (vdbs : list string) (h : History) (r : list string)
    (tr : list Event) :
  LLamaIndex.vectorize_docs docs vdbs h = (Returned r, tr) ->
  r = enabled vdbs /\
  contacted tr = enabled vdbs /\
  index_names tr =
    map (fun b => (b, environ "LFAI_INDEX_NAME")) (enabled vdbs) /\
  List.length (persists tr) = List.length (enabled vdbs) /\
  exists pre body post : list Event,
    tr = pre ++ body ++ post /\
    contacted pre = [] /\ contacted post = [] /\
    ingested docs (enabled vdbs) (h ++ pre) body.
Proof.
  unfold LLamaIndex.vectorize_docs; intros R.
  unbind R as u tr0 tr1 R0 R.
  pose proof (set_rag_context_silent h) as S; rewrite R0 in S; cbn in S.
  destruct S as (S1 & S2 & _ & _ & _ & S6).
  unbind R as u1 tr2 tr3 Rlog R; uncall Rlog.
  unbind R as acc1 trw tr4 Rw R.
  unbind R as acc2 trc tr5 Rc R.
  unbind R as u2 tr6 tr7 Rlog' R; uncall Rlog'; unret R.
  apply (guarded_ingest_returned docs "weaviate") in Rw.
  apply (guarded_ingest_returned docs "chromadb") in Rc.
  destruct Rw as [-> Iw]; destruct Rc as [-> Ic].
  pose proof (ingested_app Iw Ic) as I.
  rewrite <- enabled_split in I.
  destruct (ingested_observed I (enabled_supported vdbs)) as (C & N & P).
  cbn [app] in *; rewrite <- enabled_split.
  set (l1 := Ev (log [FLit "vdbs: "; FList vdbs]) (inr u1)) in *.
  set (l2 := Ev (log [FLit "vdbs processed: "; FList (enabled vdbs)])
                (inr u2)) in *.
  replace (tr0 ++ l1 :: trw ++ trc ++ [l2])
    with ((tr0 ++ [l1]) ++ (trw ++ trc) ++ [l2])
    by (rewrite <- !app_assoc; reflexivity).
  rewrite <- app_assoc in I.
  remember (trw ++ trc) as body eqn:Eb.
  split; [reflexivity |].
  unfold contacted, index_names, persists in *.
  rewrite !flat_map_app, !length_app, S1, S2, S6, C, N, P; cbn.
  rewrite !app_nil_r.
  repeat split; try lia.
  exists (tr0 ++ [l1]), body, [l2].
  rewrite !flat_map_app, S1; cbn; auto.
Qed.
End IngestionRuns.

(** ** The query router, entry point by entry point *)

Section QueryRuns.
Context `{W : World}.

(** One guarded query step of the router. *)
Lemma guarded_query_returned (q : string) (b : string) (on : bool)
    (bs : list string) (rs : list BackendAnswer)
    (acc : list string * list BackendAnswer) (h : History)
    (tr : list Event) :
  (if on
   then bind (query q b) (fun response => ret (bs ++ [b], rs ++ [response]))
   else ret (bs, rs)) h = (Returned acc, tr) ->
  exists rs' : list BackendAnswer,
    acc = (bs ++ (if on then [b] else []), rs ++ rs') /\
    queried q (if on then [b] else []) h tr rs'.
Proof.
  destruct on; intros R.
  - unbind R as a t t' R1 R2; unret R2.
    exists [a]; split; [reflexivity |].
    apply queried_cons; [assumption | constructor].
  - unret R; exists []; rewrite !app_nil_r.
    split; [reflexivity | constructor].
Qed.

Lemma queried_app (q : string) (bs1 bs2 : list string) (h : History)
    (tr1 tr2 : list Event) (rs1 rs2 : list BackendAnswer) :
  queried q bs1 h tr1 rs1 -> queried q bs2 (h ++ tr1) tr2 rs2 ->
  queried q (bs1 ++ bs2) h (tr1 ++ tr2) (rs1 ++ rs2).
Proof.
  induction 1 as [h | b bs h t1 t2 r rs Hb Hbs IH]; intros H2; cbn.
  - rewrite app_nil_r in H2; assumption.
  - rewrite <- app_assoc; apply queried_cons; [assumption |].
    apply IH; rewrite <- app_assoc; assumption.
Qed.

(** A run of the query router that returns, laid out: the events of
    [set_rag_context], the router's reading of the clock, its reading of
    the configuration, the query entry points of the enabled backends of
    that configuration, and the measurement of the total. *)
Lemma LLamaIndex_process_query_run (q : string) (h : History)
    (r : QueryResult) (tr : list Event) :
  LLamaIndex.process_query q h = (Returned r, tr) ->
  exists (cfg : ModelConfig) (start : Time) (ctx body : list Event),
    tr = ctx ++ [Ev now (inr start); Ev get_model_config (inr cfg)]
           ++ body ++ [Ev (get_elapsed start) (inr (total_elapsed r))] /\
    set_rag_context h = (Returned tt, ctx) /\
    respond get_model_config (h ++ ctx ++ [Ev now (inr start)]) = inr cfg /\
    vdbs_processed r = enabled (vector_stores (rag cfg)) /\
    queried q (enabled (vector_stores (rag cfg)))
      (h ++ ctx ++ [Ev now (inr start); Ev get_model_config (inr cfg)])
      body (responses r).
Proof.
  unfold LLamaIndex.process_query; intros R.
  unbind R as u tr0 tr1 R0 R; destruct u.
  unbind R as start tr2 tr3 Rnow R; uncall Rnow.
  unbind R as cfg tr4 tr5 Rcfg R; uncall Rcfg.
  unbind R as acc1 trw tr6 Rw R.
  unbind R as acc2 trc tr7 Rc R.
  unbind R as el tr8 tr9 Rel R; uncall Rel; unret R.
  apply (guarded_query_returned q "weaviate") in Rw.
  apply (guarded_query_returned q "chromadb") in Rc.
  destruct Rw as (rsw & -> & Iw); destruct Rc as (rsc & -> & Ic).
  pose proof (queried_app Iw Ic) as I.
  rewrite <- enabled_split in I.
  exists cfg, start, tr0, (trw ++ trc).
  cbn [prompt vdbs_processed responses total_elapsed fst snd app] in *.
  rewrite <- enabled_split.
  repeat rewrite <- app_assoc in *; cbn [app] in *.
  repeat split; assumption.
Qed.
End QueryRuns.

(** ** Runs in a reliable world return *)

Section Success.
Context `{W : World}.
Hypothesis Hrel : reliable.

Lemma succeeds_ret (A : Type) (a : A) (h : History) : succeeds (ret a) h.
Proof. exists a, []; reflexivity. Qed.

Lemma succeeds_call (T : Type) (c : Call T) (h : History) :
  succeeds (call c) h.
Proof.
  destruct (Hrel c h) as [v E].
  exists v, [Ev c (inr v)]; apply call_run, E.
Qed.

Lemma succeeds_bind (A B : Type) (m : M A) (f : A -> M B) (h : History) :
  succeeds m h ->
  (forall (a : A) (tr1 : list Event),
      m h = (Returned a, tr1) -> succeeds (f a) (h ++ tr1)) ->
  succeeds (bind m f) h.
Proof.
  intros (a & tr1 & Em) Hf.
  destruct (Hf a tr1 Em) as (b & tr2 & Ef).
  exists b, (tr1 ++ tr2).
  unfold bind; rewrite Em, Ef; reflexivity.
Qed.

Lemma succeeds_class_getattr (c : PyClass) (attr : string) (h : History) :
  (exists v : OptStr, lookup_mro (mro c) attr = Some v) ->
  succeeds (class_getattr c attr) h.
Proof.
  intros [v E]; unfold class_getattr; rewrite E; apply succeeds_ret.
Qed.

Lemma succeeds_subscript (V : Type) (d : Dict V) (k : string)
    (h : History) :
  dict_get d k <> None -> succeeds (subscript d k) h.
Proof.
  unfold subscript; destruct (dict_get d k); [intros _ | congruence].
  apply succeeds_ret.
Qed.
End Success.

Ltac succeed Hrel :=
  repeat first
    [ apply succeeds_ret
    | apply (succeeds_call Hrel)
    | apply succeeds_class_getattr; eexists; reflexivity
    | apply succeeds_bind; [| intros ? ? ?] ].

Section RouterSuccess.
Context `{W : World}.
Hypothesis Hrel : reliable.

Lemma Weaviate_process_query_succeeds (q : string) (h : History) :
  succeeds (Weaviate.process_query q) h.
Proof.
  unfold Weaviate.process_query, Weaviate.get_vector_store,
    Weaviate.get_client, BaseVectorStore.index_from_vector_store,
    BaseVectorStore.query_index.
  succeed Hrel.
Qed.

Lemma ChromaDB_process_query_succeeds (q : string) (h : History) :
  succeeds (ChromaDB.process_query q) h.
Proof.
  unfold ChromaDB.process_query, ChromaDB.get_vector_store,
    ChromaDB.get_client, BaseVectorStore.index_from_vector_store,
    BaseVectorStore.query_index.
  succeed Hrel.
Qed.

Lemma Weaviate_vectorize_docs_succeeds (docs : Docs) (h : History) :
  succeeds (Weaviate.vectorize_docs docs None) h.
Proof.
  unfold Weaviate.vectorize_docs, Weaviate.get_storage_context,
    Weaviate.get_vector_store, Weaviate.get_client,
    BaseVectorStore.index_from_docs, BaseVectorStore.persist_index.
  succeed Hrel.
Qed.

Lemma ChromaDB_vectorize_docs_succeeds (docs : Docs) (h : History) :
  succeeds (ChromaDB.vectorize_docs docs None) h.
Proof.
  unfold ChromaDB.vectorize_docs, ChromaDB.get_storage_context,
    ChromaDB.get_vector_store, ChromaDB.get_client,
    BaseVectorStore.index_from_docs, BaseVectorStore.persist_index.
  succeed Hrel.
Qed.

Hypothesis Hhub : llm_hub_known.
Hypothesis Hdict : describes_models.

Lemma set_rag_context_succeeds (h : History) : succeeds set_rag_context h.
Proof.
  unfold set_rag_context.
  apply succeeds_bind; [succeed Hrel | intros cfg tr1 R1].
  uncall R1. apply Hhub in E.
  apply succeeds_bind; [succeed Hrel | intros cfg' tr2 _].
  apply succeeds_bind; [succeed Hrel | intros em tr3 _].
  apply succeeds_bind.
  { destruct E as [-> | ->]; cbn; succeed Hrel. }
  intros lk tr4 R4.
  assert (K : exists k, snd lk = Some k).
  { destruct E as [E | E]; rewrite E in R4; cbn in R4;
      unbind R4 as l t1 t2 Ra Rb; unret Rb; cbn; eauto. }
  destruct K as [k K].
  apply succeeds_bind.
  { destruct (hub em =? "huggingface"); [succeed Hrel |].
    destruct (hub em =? "openai"); succeed Hrel. }
  intros emb tr5 _.
  apply succeeds_bind; [succeed Hrel | intros sc tr6 _].
  apply succeeds_bind; [succeed Hrel | intros u tr7 _].
  apply succeeds_bind; [succeed Hrel | intros d tr8 R8].
  uncall R8. apply Hdict in E0. destruct E0 as [D1 D2].
  apply succeeds_bind; [apply succeeds_subscript, D1 | intros ? ? _].
  apply succeeds_bind; [apply succeeds_subscript, D1 | intros ? ? _].
  apply succeeds_bind; [rewrite K; apply succeeds_ret | intros ? ? _].
  apply succeeds_bind; [apply succeeds_subscript, D2 | intros ? ? _].
  apply succeeds_bind; [apply succeeds_subscript, D2 | intros ? ? _].
  succeed Hrel.
Qed.

Lemma LLamaIndex_process_query_succeeds (q : string) (h : History) :
  succeeds (LLamaIndex.process_query q) h.
Proof.
  unfold LLamaIndex.process_query.
  apply succeeds_bind; [apply set_rag_context_succeeds | intros ? ? _].
  apply succeeds_bind; [succeed Hrel | intros start ? _].
  apply succeeds_bind; [succeed Hrel | intros cfg ? _].
  apply succeeds_bind.
  { destruct (py_in "weaviate" (vector_stores (rag cfg)));
      [| apply succeeds_ret].
    apply succeeds_bind;
      [apply Weaviate_process_query_succeeds | intros; apply succeeds_ret]. }
  intros acc ? _.
  apply succeeds_bind.
  { destruct (py_in "chromadb" (vector_stores (rag cfg)));
      [| apply succeeds_ret].
    apply succeeds_bind;
      [apply ChromaDB_process_query_succeeds | intros; apply succeeds_ret]. }
  intros acc' ? _.
  succeed Hrel.
Qed.

Lemma LLamaIndex_vectorize_docs_succeeds (docs : Docs)
    (vdbs : list string) (h : History) :
  succeeds (LLamaIndex.vectorize_docs docs vdbs) h.
Proof.
  unfold LLamaIndex.vectorize_docs.
  apply succeeds_bind; [apply set_rag_context_succeeds | intros ? ? _].
  apply succeeds_bind; [succeed Hrel | intros ? ? _].
  apply succeeds_bind.
  { destruct (py_in "weaviate" vdbs); [| apply succeeds_ret].
    apply succeeds_bind;
      [apply Weaviate_vectorize_docs_succeeds
      | intros; apply succeeds_ret]. }
  intros acc ? _.
  apply succeeds_bind.
  { destruct (py_in "chromadb" vdbs); [| apply succeeds_ret].
    apply succeeds_bind;
      [apply ChromaDB_vectorize_docs_succeeds
      | intros; apply succeeds_ret]. }
  intros acc' ? _.
  succeed Hrel.
Qed.
End RouterSuccess.

Section AfterContext.
Context `{W : World}.
Hypothesis Hrel : reliable.

(** In a reliable world a request returns exactly when [set_rag_context]
    does: nothing after it can stop the request. *)
Lemma LLamaIndex_process_query_succeeds_iff (q : string) (h : History) :
  succeeds (LLamaIndex.process_query q) h <-> succeeds set_rag_context h.
Proof.
  unfold LLamaIndex.process_query; split.
  - intros (r & tr & R); unbind R as u tr0 tr1 R0 R1.
    exists u, tr0; exact R0.
  - intros Hctx.
    apply succeeds_bind; [exact Hctx | intros ? ? _].
    apply succeeds_bind; [succeed Hrel | intros start ? _].
    apply succeeds_bind; [succeed Hrel | intros cfg ? _].
    apply succeeds_bind.
    { destruct (py_in "weaviate" (vector_stores (rag cfg)));
        [| apply succeeds_ret].
      apply succeeds_bind;
        [apply Weaviate_process_query_succeeds, Hrel
        | intros; apply succeeds_ret]. }
    intros acc ? _.
    apply succeeds_bind.
    { destruct (py_in "chromadb" (vector_stores (rag cfg)));
        [| apply succeeds_ret].
      apply succeeds_bind;
        [apply ChromaDB_process_query_succeeds, Hrel
        | intros; apply succeeds_ret]. }
    intros acc' ? _.
    succeed Hrel.
Qed.

Lemma LLamaIndex_vectorize_docs_succeeds_iff (docs : Docs)
    (vdbs : list string) (h : History) :
  succeeds (LLamaIndex.vectorize_docs docs vdbs) h
  <-> succeeds set_rag_context h.
Proof.
  unfold LLamaIndex.vectorize_docs; split.
  - intros (r & tr & R); unbind R as u tr0 tr1 R0 R1.
    exists u, tr0; exact R0.
  - intros Hctx.
    apply succeeds_bind; [exact Hctx | intros ? ? _].
    apply succeeds_bind; [succeed Hrel | intros ? ? _].
    apply succeeds_bind.
    { destruct (py_in "weaviate" vdbs); [| apply succeeds_ret].
      apply succeeds_bind;
        [apply Weaviate_vectorize_docs_succeeds, Hrel
        | intros; apply succeeds_ret]. }
    intros acc ? _.
    apply succeeds_bind.
    { destruct (py_in "chromadb" vdbs); [| apply succeeds_ret].
      apply succeeds_bind;
        [apply ChromaDB_vectorize_docs_succeeds, Hrel
        | intros; apply succeeds_ret]. }
    intros acc' ? _.
    succeed Hrel.
Qed.
End AfterContext.

(** ** Where the requests are sent *)

(** Unfold the router down to its external calls. *)
Ltac unfold_router :=
  unfold LLamaIndex.process_query, LLamaIndex.vectorize_docs,
    set_rag_context,
    Weaviate.process_query, Weaviate.vectorize_docs,
    Weaviate.get_storage_context, Weaviate.get_vector_store,
    Weaviate.get_client,
    ChromaDB.process_query, ChromaDB.vectorize_docs,
    ChromaDB.get_storage_context, ChromaDB.get_vector_store,
    ChromaDB.get_client,
    BaseVectorStore.index_from_docs, BaseVectorStore.index_from_vector_store,
    BaseVectorStore.persist_index, BaseVectorStore.query_index.

Section Addressing.
Context `{W : World}.

Lemma process_query_addressed (q : string) :
  emits_only addressed_from_environ (LLamaIndex.process_query q).
Proof.
  unfold_router; emission; cbn; auto.
Qed.

Lemma vectorize_docs_addressed (docs : Docs) (vdbs : list string) :
  emits_only addressed_from_environ (LLamaIndex.vectorize_docs docs vdbs).
Proof.
  unfold_router; emission; cbn; auto.
Qed.

Lemma process_query_names_the_index (q : string) :
  emits_only names_the_index (LLamaIndex.process_query q).
Proof.
  unfold_router; emission; intros b n Hin; cbn in Hin;
    repeat destruct Hin as [Hin | Hin]; try inversion Hin; reflexivity.
Qed.

Lemma vectorize_docs_names_the_index (docs : Docs) (vdbs : list string) :
  emits_only names_the_index (LLamaIndex.vectorize_docs docs vdbs).
Proof.
  unfold_router; emission; intros b n Hin; cbn in Hin;
    repeat destruct Hin as [Hin | Hin]; try inversion Hin; reflexivity.
Qed.
End Addressing.

(** ** Failures of external calls *)

Section Propagation.
Context `{W : World}.

Lemma orderly_nil (A : Type) (o : Outcome A) : orderly o [].
Proof. left; constructor. Qed.

Lemma propagates_ret (A : Type) (a : A) : propagates (ret a).
Proof. intros h; apply orderly_nil. Qed.

Lemma propagates_raise (A : Type) (e : Exn) :
  propagates (raise (A := A) e).
Proof. intros h; apply orderly_nil. Qed.

Lemma propagates_call (T : Type) (c : Call T) : propagates (call c).
Proof.
  intros h; unfold call.
  destruct (respond c h) as [e | v] eqn:E; cbn.
  - right; exists [], (Ev c (inl e)), e; repeat split; constructor.
  - left; repeat constructor.
Qed.

Lemma propagates_bind (A B : Type) (m : M A) (f : A -> M B) :
  propagates m -> (forall a : A, propagates (f a)) ->
  propagates (bind m f).
Proof.
  intros Hm Hf h; unfold bind.
  specialize (Hm h); destruct (m h) as [[a | e] tr1]; cbn in *.
  2: { destruct Hm as [Hm | (pre & ev & e' & -> & Hpre & Hev & Ho)].
       - left; assumption.
       - right; exists pre, ev, e'; inversion Ho; subst; auto. }
  specialize (Hf a (h ++ tr1)); destruct (f a (h ++ tr1)) as [o tr2].
  cbn in *.
  destruct Hm as [Hm | (pre & ev & e & _ & _ & _ & Habs)];
    [| discriminate].
  destruct Hf as [Hf | (pre & ev & e & -> & Hpre & Hev & ->)].
  - left; apply Forall_app; auto.
  - right; exists (tr1 ++ pre), ev, e.
    rewrite app_assoc; repeat split; auto.
    apply Forall_app; auto.
Qed.

Lemma propagates_class_getattr (c : PyClass) (attr : string) :
  propagates (class_getattr c attr).
Proof.
  unfold class_getattr; destruct (lookup_mro (mro c) attr);
    [apply propagates_ret | apply propagates_raise].
Qed.

Lemma propagates_subscript (V : Type) (d : Dict V) (k : string) :
  propagates (subscript d k).
Proof.
  unfold subscript; destruct (dict_get d k);
    [apply propagates_ret | apply propagates_raise].
Qed.

Lemma propagates_read_local (V : Type) (name : string) (v : option V) :
  propagates (read_local name v).
Proof. destruct v; [apply propagates_ret | apply propagates_raise]. Qed.

Lemma propagates_if (A : Type) (b : bool) (m1 m2 : M A) :
  propagates m1 -> propagates m2 -> propagates (if b then m1 else m2).
Proof. destruct b; auto. Qed.

(** In an orderly run an external failure is the outcome, and nothing
    is called after it. *)
Lemma orderly_failure (A : Type) (o : Outcome A) (tr : list Event)
    (ev : Event) (e : Exn) :
  orderly o tr -> In ev tr -> failure_of ev = Some e ->
  o = Raised e /\ exists pre : list Event, tr = pre ++ [ev].
Proof.
  intros [Hok | (pre & ev' & e' & -> & Hpre & Hev' & ->)] Hin Hev.
  - rewrite Forall_forall in Hok; rewrite (Hok ev Hin) in Hev.
    discriminate.
  - apply in_app_or in Hin; destruct Hin as [Hin | [<- | []]].
    + rewrite Forall_forall in Hpre; rewrite (Hpre ev Hin) in Hev.
      discriminate.
    + rewrite Hev' in Hev; inversion Hev; subst; eauto.
Qed.
End Propagation.

Ltac propagation :=
  repeat first
    [ apply propagates_ret
    | apply propagates_raise
    | apply propagates_call
    | apply propagates_class_getattr
    | apply propagates_subscript
    | apply propagates_read_local
    | apply propagates_if
    | apply propagates_bind; [| intros ? ] ].

Section RouterPropagation.
Context `{W : World}.

Lemma process_query_propagates (q : string) :
  propagates (LLamaIndex.process_query q).
Proof. unfold_router; propagation. Qed.

Lemma vectorize_docs_propagates (docs : Docs) (vdbs : list string) :
  propagates (LLamaIndex.vectorize_docs docs vdbs).
Proof. unfold_router; propagation. Qed.
End RouterPropagation.

(** ** The concrete world *)

Lemma lab_reliable (vdbs : list string) :
  reliable (W := lab_world vdbs true).
Proof. intros T c h; destruct c; cbn; eauto. Qed.

Lemma lab_llm_hub_known (vdbs : list string) (up : bool) :
  llm_hub_known (W := lab_world vdbs up).
Proof. intros h cfg E; cbn in E; inversion E; subst; cbn; auto. Qed.

Lemma lab_describes_models (vdbs : list string) (up : bool) :
  describes_models (W := lab_world vdbs up).
Proof.
  intros sc h d E; cbn in E; inversion E; subst; cbn; split; discriminate.
Qed.

Lemma lab_configured (vdbs : list string) (up : bool) :
  configured (W := lab_world vdbs up) vdbs.
Proof. intros h cfg E; cbn in E; inversion E; subst; reflexivity. Qed.

(** ** Membership and the enabled backends *)

Lemma py_in_spec (x : string) (l : list string) :
  py_in x l = true <-> In x l.
Proof.
  unfold py_in; rewrite existsb_exists; split.
  - intros (y & Hy & E); apply String.eqb_eq in E; subst; assumption.
  - intros Hx; exists x; split; [assumption | apply String.eqb_refl].
Qed.

Lemma enabled_spec (vdbs : list string) (b : string) :
  In b (enabled vdbs) <-> In b supported /\ In b vdbs.
Proof. unfold enabled; rewrite filter_In, py_in_spec; tauto. Qed.

Lemma enabled_NoDup (vdbs : list string) : NoDup (enabled vdbs).
Proof.
  unfold enabled; apply NoDup_filter; unfold supported.
  repeat constructor; cbn; intuition discriminate.
Qed.


(** * The claims *)

(** ** C1: which backends the router invokes, and in which order *)




(** ** C2: what a query request returns *)

(** C2.  A query request that returns has, after [set_rag_context],
    read the clock, read the configuration, run the query entry points of
    the enabled backends of that configuration (the supported backends
    that occur in its list) to completion one after the other, each with
    the prompt, and measured the total from its own reading of the clock,
    last of all.  The record it returns holds the prompt; the backends it
    lists are the enabled backends, which are the ones that were
    contacted, in that order; the answers are theirs, in the same order,
    each holding what that backend's query came back with; and the elapsed
    times pair up with the clock: the k-th answer's time was measured from
    the k-th reading taken after the router's own, and the total from the
    router's own reading.  The request does return when no external call
    fails, the configured language-model hub is [huggingface] or [openai]
    and the dict of the service context has its ['llm'] and
    ['embed_model'] entries. *)
Theorem C2_query_returns_answers_and_timing
    `{W : World} (q : string) (h : History) :
  (reliable -> llm_hub_known -> describes_models ->
   succeeds (LLamaIndex.process_query q) h) /\
  (forall (r : QueryResult) (tr : list Event),
      LLamaIndex.process_query q h = (Returned r, tr) ->
      (exists (cfg : ModelConfig) (start : Time) (ctx body : list Event),
          tr = ctx ++ [Ev now (inr start); Ev get_model_config (inr cfg)]
                 ++ body
                 ++ [Ev (get_elapsed start) (inr (total_elapsed r))] /\
          set_rag_context h = (Returned tt, ctx) /\
          contacted ctx = [] /\
          respond get_model_config (h ++ ctx ++ [Ev now (inr start)])
            = inr cfg /\
          vdbs_processed r = enabled (vector_stores (rag cfg)) /\
          queried q (enabled (vector_stores (rag cfg)))
            (h ++ ctx ++ [Ev now (inr start); Ev get_model_config (inr cfg)])
            body (responses r)) /\
      (forall vdbs : list string,
          configured vdbs ->
          contacted tr = enabled vdbs /\
          vdbs_processed r = enabled vdbs /\
          map vector_store (responses r) = enabled vdbs) /\
      prompt r = q /\
      vdbs_processed r = contacted tr /\
      map vector_store (responses r) = contacted tr /\
      answers tr = map (fun a => (q, response a)) (responses r) /\
      exists (start : Time) (starts : list Time),
        clock_reads tr = start :: starts /\
        List.length starts = List.length (responses r) /\
        measurements tr =
          combine starts (map elapsed (responses r))
            ++ [(start, total_elapsed r)]).
Proof.
  split.
  - intros Hrel Hhub Hdict.
    apply LLamaIndex_process_query_succeeds; assumption.
  - intros r tr R.
    pose proof (LLamaIndex_process_query_run _ _ R)
      as (cfg' & s' & ctx & body & Etr & Rctx & Hc' & V' & Q').
    pose proof (set_rag_context_silent h) as S; rewrite Rctx in S.
    destruct S as (S & _); cbn [snd] in S.
    apply LLamaIndex_process_query_returned in R.
    destruct R as (h' & cfg & s & ss & Hc & P & V & A & C & _ & Q & K & M & L).
    split; [exists cfg', s', ctx, body; repeat split; assumption |].
    split.
    { intros vdbs Hcfg; rewrite C, V, A, (Hcfg _ _ Hc); auto. }
    rewrite C, V, A.
    split; [assumption |].
    split; [reflexivity |].
    split; [reflexivity |].
    split; [assumption |].
    exists s, ss; auto.
Qed.

Lemma C2_query_returns_answers_and_timing_witness :
  let vdbs := ["chromadb"; "weaviate"] in
  let W := lab_world vdbs true in
  exists (r : QueryResult) (tr : list Event),
    LLamaIndex.process_query (W := W) "hello" [] = (Returned r, tr) /\
    contacted tr = ["weaviate"; "chromadb"] /\
    vdbs_processed r = ["weaviate"; "chromadb"] /\
    map vector_store (responses r) = ["weaviate"; "chromadb"] /\
    prompt r = "hello" /\
    answers tr = map (fun a => ("hello", response a)) (responses r) /\
    exists (start : Time) (starts : list Time),
      clock_reads tr = start :: starts /\
      List.length starts = List.length (responses r) /\
      measurements tr =
        combine starts (map elapsed (responses r))
          ++ [(start, total_elapsed r)].
Proof.
  intros vdbs W.
  destruct (C2_query_returns_answers_and_timing (W := W) "hello" [])
    as (Hs & Hr).
  destruct (Hs (@lab_reliable vdbs) (@lab_llm_hub_known vdbs true)
               (@lab_describes_models vdbs true)) as (r & tr & R).
  destruct (Hr r tr R) as (_ & Hv & P & _ & _ & A & T).
  destruct (Hv vdbs (@lab_configured vdbs true)) as (C & V & B).
  exists r, tr.
  split; [exact R |].
  split; [exact C |].
  split; [exact V |].
  split; [exact B |].
  split; [exact P |].
  split; [exact A | exact T].
Defined.

(** ** C3: what a vectorize request returns *)

(** C3.  In a reliable world a vectorize request returns.  Whenever it
    returns the list [r], the ingestion entry points of the backends in [r]
    ran to completion one after the other, in the order of [r], between
    the router's two log lines; each of them persisted its index; no other
    backend was contacted; and a name is in [r] exactly when it is a
    supported backend that occurs in the requested list. *)
Theorem C3_vectorize_returns_completed_backends
    `{W : World} (docs : Docs) (vdbs : list string) (h : History) :
  (reliable -> llm_hub_known -> describes_models ->
   succeeds (LLamaIndex.vectorize_docs docs vdbs) h) /\
  (forall (r : list string) (tr : list Event),
      LLamaIndex.vectorize_docs docs vdbs h = (Returned r, tr) ->
      (exists pre body post : list Event,
          tr = pre ++ body ++ post /\
          contacted pre = [] /\ contacted post = [] /\
          ingested docs r (h ++ pre) body) /\
      contacted tr = r /\
      List.length (persists tr) = List.length r /\
      (forall b : string, In b r <-> In b supported /\ In b vdbs)).
Proof.
  split.
  - intros Hrel Hhub Hdict.
    apply LLamaIndex_vectorize_docs_succeeds; assumption.
  - intros r tr R.
    apply LLamaIndex_vectorize_docs_returned in R.
    destruct R as (-> & C & _ & P & I).
    split; [exact I | split; [exact C | split; [exact P |]]].
    intros b; apply enabled_spec.
Qed.

Lemma C3_vectorize_returns_completed_backends_witness :
  let vdbs := ["chromadb"; "pinecone"] in
  let W := lab_world [] true in
  exists (r : list string) (tr : list Event),
    LLamaIndex.vectorize_docs (W := W) ["report.txt"] vdbs []
      = (Returned r, tr) /\
    contacted tr = r /\
    List.length (persists tr) = List.length r /\
    (In "chromadb" r <-> In "chromadb" supported /\ In "chromadb" vdbs) /\
    (In "pinecone" r <-> In "pinecone" supported /\ In "pinecone" vdbs).
Proof.
  intros vdbs W.
  destruct (C3_vectorize_returns_completed_backends
              (W := W) ["report.txt"] vdbs []) as (Hs & Hr).
  destruct (Hs (@lab_reliable []) (@lab_llm_hub_known [] true)
               (@lab_describes_models [] true)) as (r & tr & R).
  exists r, tr; split; [exact R |].
  destruct (Hr r tr R) as (_ & C & P & S).
  split; [exact C | split; [exact P | split; apply S]].
Defined.

(** ** C4: failures of the backends *)

(** C4.  Whatever the world does, if an external call made during a query
    or a vectorize request raises, then the request raises that very
    exception, it returns no result, and the failed call is the last call
    of the request: nothing is retried and no later backend is tried. *)
Theorem C4_failure_propagates_unhandled
    `{W : World} (q : string) (docs : Docs) (vdbs : list string)
    (h : History) (ev : Event) (e : Exn) :
  failure_of ev = Some e ->
  (In ev (snd (LLamaIndex.process_query q h)) ->
   fst (LLamaIndex.process_query q h) = Raised e /\
   (forall r : QueryResult,
       fst (LLamaIndex.process_query q h) <> Returned r) /\
   exists pre : list Event,
     snd (LLamaIndex.process_query q h) = pre ++ [ev]) /\
  (In ev (snd (LLamaIndex.vectorize_docs docs vdbs h)) ->
   fst (LLamaIndex.vectorize_docs docs vdbs h) = Raised e /\
   (forall r : list string,
       fst (LLamaIndex.vectorize_docs docs vdbs h) <> Returned r) /\
   exists pre : list Event,
     snd (LLamaIndex.vectorize_docs docs vdbs h) = pre ++ [ev]).
Proof.
  intros Hev; split; intros Hin.
  - pose proof (process_query_propagates q h) as Ho.
    eapply orderly_failure in Ho; [| exact Hin | exact Hev].
    destruct Ho as [Ho Hlast].
    rewrite Ho; split; [reflexivity | split; [discriminate | exact Hlast]].
  - pose proof (vectorize_docs_propagates docs vdbs h) as Ho.
    eapply orderly_failure in Ho; [| exact Hin | exact Hev].
    destruct Ho as [Ho Hlast].
    rewrite Ho; split; [reflexivity | split; [discriminate | exact Hlast]].
Qed.

Lemma C4_failure_propagates_unhandled_witness :
  let vdbs := ["weaviate"; "chromadb"] in
  let W := lab_world vdbs false in
  let refused := LibraryError "connection refused" in
  fst (LLamaIndex.process_query (W := W) "hello" []) = Raised refused /\
  fst (LLamaIndex.vectorize_docs (W := W) ["report.txt"] vdbs [])
    = Raised refused /\
  contacted (snd (LLamaIndex.vectorize_docs (W := W) ["report.txt"] vdbs []))
    = ["weaviate"; "chromadb"].
Proof.
  intros vdbs W refused.
  pose (ev := Ev (chromadb_HttpClient (Some "chroma.local") (Some "8000"))
                 (inl refused)).
  destruct (C4_failure_propagates_unhandled
              (W := W) "hello" ["report.txt"] vdbs [] ev
              (e := refused) eq_refl) as [Hq Hv].
  split; [| split].
  - apply Hq, (nth_error_In _ 21); vm_compute; reflexivity.
  - apply Hv, (nth_error_In _ 17); vm_compute; reflexivity.
  - reflexivity.
Defined.

(** ** C5: the defaults of the schema classes *)

(** C5.  A [CompletionRequest] built from a model and a prompt, a
    [ChatCompletionRequest] built from a model and messages, a
    [ModelResponseModel] built from an id and a [ModelResponse] built from
    nothing take the declared defaults for every other field. *)
Theorem C5_schema_defaults
    (model id : string) (prompt : string + list Z)
    (messages : list ChatMessage.t) :
  let c := CompletionRequest.init model prompt Omitted Omitted Omitted in
  let cc :=
    ChatCompletionRequest.init model messages
      Omitted Omitted Omitted Omitted Omitted in
  let m := ModelResponseModel.init id Omitted Omitted Omitted in
  let l := ModelResponse.init Omitted Omitted in
  (CompletionRequest.model c = model /\
   CompletionRequest.prompt c = prompt /\
   CompletionRequest.stream c = Some false /\
   CompletionRequest.max_new_tokens c = Some 16%Z /\
   CompletionRequest.temperature c = Some (1 # 1)%Q) /\
  (ChatCompletionRequest.model cc = model /\
   ChatCompletionRequest.messages cc = messages /\
   ChatCompletionRequest.functions cc = None /\
   ChatCompletionRequest.temperature cc = Some (1 # 1)%Q /\
   ChatCompletionRequest.stream cc = Some false /\
   ChatCompletionRequest.stop cc = None /\
   ChatCompletionRequest.max_tokens cc = Some 128%Z) /\
  (ModelResponseModel.id m = id /\
   ModelResponseModel.object m = "model" /\
   ModelResponseModel.created m = 0%Z /\
   ModelResponseModel.owned_by m = "leapfrogai") /\
  (ModelResponse.object l = "list" /\
   ModelResponse.data l = []).
Proof. cbv zeta; cbn; repeat split. Qed.

(** ** C6: answers and backends are aligned *)

(** C6.  In the record a query request returns, ['responses'] and
    ['vdbs_processed'] have the same length, and the i-th answer is
    labelled with the i-th processed backend. *)
Theorem C6_answers_aligned_with_backends
    `{W : World} (q : string) (h : History) (r : QueryResult)
    (tr : list Event) :
  LLamaIndex.process_query q h = (Returned r, tr) ->
  List.length (responses r) = List.length (vdbs_processed r) /\
  forall (i : nat) (a : BackendAnswer),
    nth_error (responses r) i = Some a ->
    nth_error (vdbs_processed r) i = Some (vector_store a).
Proof.
  intros R; apply LLamaIndex_process_query_returned in R.
  destruct R as (h' & cfg & s & ss & _ & _ & P & V & _).
  rewrite P, <- V; split.
  - symmetry; apply length_map.
  - intros i a Hi; apply map_nth_error; assumption.
Qed.

Lemma C6_answers_aligned_with_backends_witness :
  let vdbs := ["chromadb"; "weaviate"] in
  let W := lab_world vdbs true in
  exists (r : QueryResult) (tr : list Event),
    LLamaIndex.process_query (W := W) "hello" [] = (Returned r, tr) /\
    List.length (responses r) = List.length (vdbs_processed r) /\
    forall (i : nat) (a : BackendAnswer),
      nth_error (responses r) i = Some a ->
      nth_error (vdbs_processed r) i = Some (vector_store a).
Proof.
  intros vdbs W.
  destruct (LLamaIndex_process_query_succeeds
              (W := W) (@lab_reliable vdbs) (@lab_llm_hub_known vdbs true)
              (@lab_describes_models vdbs true) "hello" [])
    as (r & tr & R).
  exists r, tr; split; [exact R |].
  exact (C6_answers_aligned_with_backends (W := W) "hello" [] R).
Defined.

(** ** C7: only membership of the two names matters *)

Lemma enabled_ext (vdbs1 vdbs2 : list string) :
  (In "weaviate" vdbs1 <-> In "weaviate" vdbs2) ->
  (In "chromadb" vdbs1 <-> In "chromadb" vdbs2) ->
  enabled vdbs1 = enabled vdbs2.
Proof.
  intros Hw Hc; rewrite !enabled_split.
  rewrite <- !py_in_spec in Hw, Hc.
  destruct (py_in "weaviate" vdbs1), (py_in "weaviate" vdbs2),
    (py_in "chromadb" vdbs1), (py_in "chromadb" vdbs2);
    try reflexivity; intuition discriminate.
Qed.

Lemma enabled_known (vdbs : list string) (b : string) :
  In b (enabled vdbs) -> b = "weaviate" \/ b = "chromadb".
Proof.
  intros Hb; apply enabled_spec in Hb; destruct Hb as [Hb _].
  destruct Hb as [<- | [<- | []]]; auto.
Qed.

(** C7.  Take two backend lists that agree on whether they contain
    ['weaviate'] and on whether they contain ['chromadb'].  Two vectorize
    requests with these lists, and two query requests under
    configurations with these lists, that return have contacted the same
    backends and return the same processed-backends list, whatever else
    differs between the runs.  That list has no duplicates and holds no
    name other than ['weaviate'] and ['chromadb']. *)
Theorem C7_router_depends_on_membership_only
    `{L : Library} (W1 W2 : World) (vdbs1 vdbs2 : list string) :
  (In "weaviate" vdbs1 <-> In "weaviate" vdbs2) ->
  (In "chromadb" vdbs1 <-> In "chromadb" vdbs2) ->
  (forall (docs1 docs2 : Docs) (h1 h2 : History) (r1 r2 : list string)
          (tr1 tr2 : list Event),
      LLamaIndex.vectorize_docs (W := W1) docs1 vdbs1 h1
        = (Returned r1, tr1) ->
      LLamaIndex.vectorize_docs (W := W2) docs2 vdbs2 h2
        = (Returned r2, tr2) ->
      r1 = r2 /\ contacted tr1 = contacted tr2 /\
      contacted tr1 = r1 /\ NoDup r1 /\
      forall b : string, In b r1 -> b = "weaviate" \/ b = "chromadb") /\
  (forall (q1 q2 : string) (h1 h2 : History) (r1 r2 : QueryResult)
          (tr1 tr2 : list Event),
      configured (W := W1) vdbs1 ->
      configured (W := W2) vdbs2 ->
      LLamaIndex.process_query (W := W1) q1 h1 = (Returned r1, tr1) ->
      LLamaIndex.process_query (W := W2) q2 h2 = (Returned r2, tr2) ->
      vdbs_processed r1 = vdbs_processed r2 /\
      contacted tr1 = contacted tr2 /\
      contacted tr1 = vdbs_processed r1 /\
      NoDup (vdbs_processed r1) /\
      forall b : string,
        In b (vdbs_processed r1) -> b = "weaviate" \/ b = "chromadb").
Proof.
  intros Hw Hc; pose proof (enabled_ext _ _ Hw Hc) as E; split.
  - intros docs1 docs2 h1 h2 r1 r2 tr1 tr2 R1 R2.
    apply LLamaIndex_vectorize_docs_returned in R1, R2.
    destruct R1 as (-> & C1 & _); destruct R2 as (-> & C2 & _).
    rewrite C1, C2; repeat split; auto using enabled_NoDup.
    apply enabled_known.
  - intros q1 q2 h1 h2 r1 r2 tr1 tr2 K1 K2 R1 R2.
    apply LLamaIndex_process_query_returned in R1, R2.
    destruct R1 as (h1' & cfg1 & s1 & ss1 & G1 & _ & P1 & _ & C1 & _).
    destruct R2 as (h2' & cfg2 & s2 & ss2 & G2 & _ & P2 & _ & C2 & _).
    rewrite (K1 _ _ G1) in *; rewrite (K2 _ _ G2) in *.
    rewrite C1, C2, P1, P2; repeat split; auto using enabled_NoDup.
    apply enabled_known.
Qed.

Lemma C7_router_depends_on_membership_only_witness :
  let vdbs1 := ["chromadb"; "weaviate"; "pinecone"; "chromadb"] in
  let vdbs2 := ["weaviate"; "chromadb"] in
  (exists (r1 r2 : list string) (tr1 tr2 : list Event),
      LLamaIndex.vectorize_docs (W := lab_world [] true)
        ["report.txt"] vdbs1 [] = (Returned r1, tr1) /\
      LLamaIndex.vectorize_docs (W := lab_world ["weaviate"] true)
        ["notes.txt"] vdbs2 [] = (Returned r2, tr2) /\
      r1 = r2 /\ contacted tr1 = contacted tr2) /\
  (exists (r1 r2 : QueryResult) (tr1 tr2 : list Event),
      LLamaIndex.process_query (W := lab_world vdbs1 true) "hello" []
        = (Returned r1, tr1) /\
      LLamaIndex.process_query (W := lab_world vdbs2 true) "goodbye" []
        = (Returned r2, tr2) /\
      vdbs_processed r1 = vdbs_processed r2 /\
      contacted tr1 = contacted tr2).
Proof.
  intros vdbs1 vdbs2.
  assert (Hw : In "weaviate" vdbs1 <-> In "weaviate" vdbs2)
    by (rewrite <- !py_in_spec; reflexivity).
  assert (Hc : In "chromadb" vdbs1 <-> In "chromadb" vdbs2)
    by (rewrite <- !py_in_spec; reflexivity).
  split.
  - destruct (C7_router_depends_on_membership_only
                (lab_world [] true) (lab_world ["weaviate"] true)
                vdbs1 vdbs2 Hw Hc)
      as [Hv _].
    destruct (LLamaIndex_vectorize_docs_succeeds
                (W := lab_world [] true) (@lab_reliable [])
                (@lab_llm_hub_known [] true) (@lab_describes_models [] true)
                ["report.txt"] vdbs1 []) as (r1 & tr1 & R1).
    destruct (LLamaIndex_vectorize_docs_succeeds
                (W := lab_world ["weaviate"] true)
                (@lab_reliable ["weaviate"])
                (@lab_llm_hub_known ["weaviate"] true)
                (@lab_describes_models ["weaviate"] true)
                ["notes.txt"] vdbs2 []) as (r2 & tr2 & R2).
    exists r1, r2, tr1, tr2.
    destruct (Hv _ _ _ _ _ _ _ _ R1 R2) as (E1 & E2 & _).
    split; [exact R1 | split; [exact R2 | split; [exact E1 | exact E2]]].
  - destruct (C7_router_depends_on_membership_only
                (lab_world vdbs1 true) (lab_world vdbs2 true)
                vdbs1 vdbs2 Hw Hc)
      as [_ Hq].
    destruct (LLamaIndex_process_query_succeeds
                (W := lab_world vdbs1 true) (@lab_reliable vdbs1)
                (@lab_llm_hub_known vdbs1 true)
                (@lab_describes_models vdbs1 true) "hello" [])
      as (r1 & tr1 & R1).
    destruct (LLamaIndex_process_query_succeeds
                (W := lab_world vdbs2 true) (@lab_reliable vdbs2)
                (@lab_llm_hub_known vdbs2 true)
                (@lab_describes_models vdbs2 true) "goodbye" [])
      as (r2 & tr2 & R2).
    exists r1, r2, tr1, tr2.
    destruct (Hq _ _ _ _ _ _ _ _
                (@lab_configured vdbs1 true) (@lab_configured vdbs2 true)
                R1 R2) as (E1 & E2 & _).
    split; [exact R1 | split; [exact R2 | split; [exact E1 | exact E2]]].
Defined.

(** ** C8: both backends are queried under the same index name *)

Section IndexName.
Context `{W : World}.

Lemma Weaviate_process_query_names_the_index (q : string) :
  emits_only names_the_index (Weaviate.process_query q).
Proof.
  unfold_router; emission; intros b n Hin; cbn in Hin;
    repeat destruct Hin as [Hin | Hin]; try inversion Hin; reflexivity.
Qed.

Lemma ChromaDB_process_query_names_the_index (q : string) :
  emits_only names_the_index (ChromaDB.process_query q).
Proof.
  unfold_router; emission; intros b n Hin; cbn in Hin;
    repeat destruct Hin as [Hin | Hin]; try inversion Hin; reflexivity.
Qed.
End IndexName.

(** C8.  [Weaviate.LFAI_INDEX_NAME] and [ChromaDB.LFAI_INDEX_NAME] are not
    defined by these classes: both resolve to the attribute of
    [BaseVectorStore], which holds the environment's [LFAI_INDEX_NAME].
    Every index name either query entry point hands to a vector-store
    lookup is that value, for every prompt, in every run; and a run of
    either entry point that returns has made exactly one such lookup. *)
Theorem C8_same_index_name_for_both_backends
    `{W : World} (q : string) (h1 h2 : History) :
  (dict_get (class_dict cls_Weaviate) "LFAI_INDEX_NAME" = None /\
   dict_get (class_dict cls_ChromaDB) "LFAI_INDEX_NAME" = None /\
   lookup_mro (mro cls_Weaviate) "LFAI_INDEX_NAME"
     = dict_get (class_dict cls_BaseVectorStore) "LFAI_INDEX_NAME" /\
   lookup_mro (mro cls_ChromaDB) "LFAI_INDEX_NAME"
     = dict_get (class_dict cls_BaseVectorStore) "LFAI_INDEX_NAME" /\
   dict_get (class_dict cls_BaseVectorStore) "LFAI_INDEX_NAME"
     = Some (environ "LFAI_INDEX_NAME")) /\
  (forall (b : string) (n : OptStr),
      In (b, n) (index_names (snd (Weaviate.process_query q h1))
                   ++ index_names (snd (ChromaDB.process_query q h2))) ->
      n = environ "LFAI_INDEX_NAME") /\
  (forall (a1 a2 : BackendAnswer) (tr1 tr2 : list Event),
      Weaviate.process_query q h1 = (Returned a1, tr1) ->
      ChromaDB.process_query q h2 = (Returned a2, tr2) ->
      index_names tr1 = [("weaviate", environ "LFAI_INDEX_NAME")] /\
      index_names tr2 = [("chromadb", environ "LFAI_INDEX_NAME")] /\
      map snd (index_names tr1) = map snd (index_names tr2)).
Proof.
  split; [repeat split | split].
  - intros b n Hin; apply in_app_or in Hin.
    assert (G : forall tr : list Event,
               Forall names_the_index tr -> In (b, n) (index_names tr) ->
               n = environ "LFAI_INDEX_NAME").
    { intros tr Hall Hn; unfold index_names in Hn.
      apply in_flat_map in Hn; destruct Hn as (ev & Hev & Hn).
      rewrite Forall_forall in Hall; exact (Hall ev Hev b n Hn). }
    destruct Hin as [Hin | Hin].
    + exact (G _ (Weaviate_process_query_names_the_index q h1) Hin).
    + exact (G _ (ChromaDB_process_query_names_the_index q h2) Hin).
  - intros a1 a2 tr1 tr2 R1 R2.
    apply Weaviate_process_query_returned in R1.
    apply ChromaDB_process_query_returned in R2.
    destruct R1 as (_ & _ & I1 & _); destruct R2 as (_ & _ & I2 & _).
    rewrite I1, I2; repeat split.
Qed.

Lemma C8_same_index_name_for_both_backends_witness :
  let W := lab_world [] true in
  exists (a1 a2 : BackendAnswer) (tr1 tr2 : list Event),
    Weaviate.process_query (W := W) "hello" [] = (Returned a1, tr1) /\
    ChromaDB.process_query (W := W) "hello" [] = (Returned a2, tr2) /\
    index_names tr1 = [("weaviate", Some "Leapfrog")] /\
    index_names tr2 = [("chromadb", Some "Leapfrog")].
Proof.
  intros W.
  destruct (C8_same_index_name_for_both_backends (W := W) "hello" [] [])
    as (_ & _ & Hr).
  destruct (Weaviate_process_query_succeeds
              (W := W) (@lab_reliable []) "hello" []) as (a1 & tr1 & R1).
  destruct (ChromaDB_process_query_succeeds
              (W := W) (@lab_reliable []) "hello" []) as (a2 & tr2 & R2).
  exists a1, a2, tr1, tr2.
  destruct (Hr _ _ _ _ R1 R2) as (I1 & I2 & _).
  split; [exact R1 | split; [exact R2 | split; [exact I1 | exact I2]]].
Defined.

(** ** C9: the clients are addressed from the environment *)

(** C9.  In every run of a query or a vectorize request, each client of
    the self-hosted backend is constructed with the URL [http://],
    [WEAVIATE_HOST], [:], [WEAVIATE_PORT] and each client of the managed
    backend with host [CHROMADB_HOST] and port [CHROMADB_PORT], the
    values being those of the environment (an unset variable is [None],
    which the URL renders as the text [None]). *)
Theorem C9_clients_addressed_from_environment
    `{W : World} (q : string) (docs : Docs) (vdbs : list string)
    (h : History) :
  let trace :=
    snd (LLamaIndex.process_query q h)
      ++ snd (LLamaIndex.vectorize_docs docs vdbs h) in
  (forall (url : string) (r : Exn + WeaviateClient),
      In (Ev (weaviate_Client url) r) trace ->
      url = ("http://" ++ py_format (environ "WEAVIATE_HOST") ++ ":"
               ++ py_format (environ "WEAVIATE_PORT"))%string) /\
  (forall (host port url : string) (r : Exn + WeaviateClient),
      environ "WEAVIATE_HOST" = Some host ->
      environ "WEAVIATE_PORT" = Some port ->
      In (Ev (weaviate_Client url) r) trace ->
      url = ("http://" ++ host ++ ":" ++ port)%string) /\
  (forall (host port : OptStr) (r : Exn + ChromaClient),
      In (Ev (chromadb_HttpClient host port) r) trace ->
      host = environ "CHROMADB_HOST" /\ port = environ "CHROMADB_PORT").
Proof.
  intros trace.
  assert (A : Forall addressed_from_environ trace).
  { apply Forall_app; split;
      [apply process_query_addressed | apply vectorize_docs_addressed]. }
  rewrite Forall_forall in A.
  split; [| split].
  - intros url r Hin; exact (A _ Hin).
  - intros host port url r Hh Hp Hin.
    pose proof (A _ Hin) as E; cbn in E.
    rewrite Hh, Hp in E; exact E.
  - intros host port r Hin; exact (A _ Hin).
Qed.

Lemma C9_clients_addressed_from_environment_witness :
  let vdbs := ["weaviate"; "chromadb"] in
  let W := lab_world vdbs true in
  let trace :=
    snd (LLamaIndex.process_query (W := W) "hello" [])
      ++ snd (LLamaIndex.vectorize_docs (W := W) ["report.txt"] vdbs []) in
  In (Ev (weaviate_Client "http://weaviate.local:8080") (inr tt)) trace /\
  "http://weaviate.local:8080"
    = ("http://" ++ "weaviate.local" ++ ":" ++ "8080")%string /\
  In (Ev (chromadb_HttpClient (Some "chroma.local") (Some "8000")) (inr tt))
     trace /\
  (Some "chroma.local" = environ (World := W) "CHROMADB_HOST" /\
   Some "8000" = environ (World := W) "CHROMADB_PORT").
Proof.
  intros vdbs W trace.
  destruct (C9_clients_addressed_from_environment
              (W := W) "hello" ["report.txt"] vdbs []) as (_ & Hu & Hc).
  assert (Hin : In (Ev (weaviate_Client "http://weaviate.local:8080")
                       (inr tt)) trace)
    by (apply (nth_error_In _ 14); vm_compute; reflexivity).
  assert (Hin' : In (Ev (chromadb_HttpClient (Some "chroma.local")
                           (Some "8000")) (inr tt)) trace)
    by (apply (nth_error_In _ 21); vm_compute; reflexivity).
  split; [exact Hin | split; [| split; [exact Hin' |]]].
  - exact (Hu "weaviate.local" "8080" _ _ eq_refl eq_refl Hin).
  - exact (Hc _ _ _ Hin').
Defined.

(** * Every run, step by step *)

(** ** Stepping through a run, whatever the world answers *)

Section Delivery.
Context `{W : World}.

Lemma bind_assoc (A B C : Type) (m : M A) (g : A -> M B) (f : B -> M C)
    (h : History) :
  bind (bind m g) f h = bind m (fun a => bind (g a) f) h.
Proof.
  unfold bind; destruct (m h) as [[a | e] tr1]; [| reflexivity].
  destruct (g a (h ++ tr1)) as [[b | e] tr2]; [| reflexivity].
  rewrite <- app_assoc.
  destruct (f b (h ++ tr1 ++ tr2)) as [o tr3].
  rewrite app_assoc; reflexivity.
Qed.

Lemma delivers_assoc (A B C : Type) (m : M A) (g : A -> M B)
    (f : B -> M C) (h : History) (Q : Outcome C -> list Event -> Prop) :
  delivers (bind m (fun a => bind (g a) f)) h Q ->
  delivers (bind (bind m g) f) h Q.
Proof. unfold delivers; rewrite bind_assoc; auto. Qed.

Lemma delivers_ret (A : Type) (a : A) (h : History)
    (Q : Outcome A -> list Event -> Prop) :
  Q (Returned a) [] -> delivers (ret a) h Q.
Proof. auto. Qed.

Lemma delivers_call (T : Type) (c : Call T) (h : History)
    (Q : Outcome T -> list Event -> Prop) :
  (forall e : Exn, respond c h = inl e -> Q (Raised e) [Ev c (inl e)]) ->
  (forall v : T, respond c h = inr v -> Q (Returned v) [Ev c (inr v)]) ->
  delivers (call c) h Q.
Proof.
  intros He Hv; unfold delivers, call.
  destruct (respond c h) as [e | v]; cbn; auto.
Qed.

Lemma delivers_bind (A B : Type) (m : M A) (f : A -> M B) (h : History)
    (Q : Outcome B -> list Event -> Prop) :
  (forall (e : Exn) (tr1 : list Event),
      m h = (Raised e, tr1) -> Q (Raised e) tr1) ->
  (forall (a : A) (tr1 : list Event),
      m h = (Returned a, tr1) ->
      delivers (f a) (h ++ tr1) (fun o tr2 => Q o (tr1 ++ tr2))) ->
  delivers (bind m f) h Q.
Proof.
  intros He Hv; unfold delivers, bind in *.
  destruct (m h) as [[a | e] tr1]; cbn; [| apply He; reflexivity].
  specialize (Hv a tr1 eq_refl).
  destruct (f a (h ++ tr1)) as [o tr2]; exact Hv.
Qed.

Lemma delivers_call_bind (T B : Type) (c : Call T) (f : T -> M B)
    (h : History) (Q : Outcome B -> list Event -> Prop) :
  (forall e : Exn, respond c h = inl e -> Q (Raised e) [Ev c (inl e)]) ->
  (forall v : T,
      respond c h = inr v ->
      delivers (f v) (h ++ [Ev c (inr v)])
        (fun o tr => Q o (Ev c (inr v) :: tr))) ->
  delivers (bind (call c) f) h Q.
Proof.
  intros He Hv; apply delivers_bind.
  - intros e tr1 R; unfold call in R.
    destruct (respond c h) as [e' | v] eqn:E; inversion R; subst; auto.
  - intros a tr1 R; uncall R; apply Hv; assumption.
Qed.

Lemma delivers_ret_bind (A B : Type) (a : A) (f : A -> M B) (h : History)
    (Q : Outcome B -> list Event -> Prop) :
  delivers (f a) (h ++ []) Q -> delivers (bind (ret a) f) h Q.
Proof.
  intros Hd; apply delivers_bind.
  - intros e tr1 R; discriminate.
  - intros a' tr1 R; unret R; exact Hd.
Qed.

Lemma delivers_raise_bind (A B : Type) (e : Exn) (f : A -> M B)
    (h : History) (Q : Outcome B -> list Event -> Prop) :
  Q (Raised e) [] -> delivers (bind (raise e) f) h Q.
Proof.
  intros Hd; apply delivers_bind.
  - intros e' tr1 R; inversion R; subst; exact Hd.
  - intros a tr1 R; discriminate.
Qed.

Lemma delivers_getattr_bind (B : Type) (c : PyClass) (attr : string)
    (v : OptStr) (f : OptStr -> M B) (h : History)
    (Q : Outcome B -> list Event -> Prop) :
  lookup_mro (mro c) attr = Some v ->
  delivers (f v) (h ++ []) Q ->
  delivers (bind (class_getattr c attr) f) h Q.
Proof.
  intros E Hd; unfold class_getattr; rewrite E.
  apply delivers_ret_bind, Hd.
Qed.

Lemma delivers_subscript_bind (V B : Type) (d : Dict V) (k : string)
    (f : V -> M B) (h : History) (Q : Outcome B -> list Event -> Prop) :
  (dict_get d k = None -> Q (Raised (KeyError k)) []) ->
  (forall v : V, dict_get d k = Some v -> delivers (f v) (h ++ []) Q) ->
  delivers (bind (subscript d k) f) h Q.
Proof.
  intros Hn Hs; unfold subscript; destruct (dict_get d k) as [v |].
  - apply delivers_ret_bind, Hs; reflexivity.
  - apply delivers_raise_bind, Hn; reflexivity.
Qed.

Lemma delivers_read_local_bind (V B : Type) (name : string) (v : option V)
    (f : V -> M B) (h : History) (Q : Outcome B -> list Event -> Prop) :
  (v = None -> Q (Raised (UnboundLocalError name)) []) ->
  (forall x : V, v = Some x -> delivers (f x) (h ++ []) Q) ->
  delivers (bind (read_local name v) f) h Q.
Proof.
  intros Hn Hs; destruct v as [x |]; cbn [read_local].
  - apply delivers_ret_bind, Hs; reflexivity.
  - apply delivers_raise_bind, Hn; reflexivity.
Qed.
End Delivery.

(** One statement of the run: an external call (both answers), a class
    attribute, a key, a local, a branch. *)
Ltac step :=
  lazymatch goal with
  | |- delivers (bind (bind _ _) _) _ _ => apply delivers_assoc
  | |- delivers (bind (call _) _) _ _ =>
      apply delivers_call_bind;
      [ let E := fresh "E" in intros ? E
      | let E := fresh "E" in intros ? E ]
  | |- delivers (bind (ret _) _) _ _ => apply delivers_ret_bind
  | |- delivers (bind (raise _) _) _ _ => apply delivers_raise_bind
  | |- delivers (bind (class_getattr _ _) _) _ _ =>
      eapply delivers_getattr_bind; [reflexivity |]
  | |- delivers (bind (subscript _ _) _) _ _ =>
      apply delivers_subscript_bind;
      [ let E := fresh "K" in intros E
      | let E := fresh "K" in intros ? E ]
  | |- delivers (bind (read_local _ _) _) _ _ =>
      apply delivers_read_local_bind;
      [ let E := fresh "U" in intros E; cbn in E; try discriminate E
      | let E := fresh "U" in intros ? E; cbn in E; try discriminate E ]
  | |- delivers (bind (if ?b then _ else _) _) _ _ => destruct b eqn:?
  | |- delivers (call _) _ _ =>
      apply delivers_call;
      [ let E := fresh "E" in intros ? E
      | let E := fresh "E" in intros ? E ]
  | |- delivers (ret _) _ _ => apply delivers_ret
  end.



Section Unfailing.
Context `{L : Library}.

Lemma unfailing_cons (ev : Event) (tr : list Event) :
  unfailing (ev :: tr) -> failure_of ev = None /\ unfailing tr.
Proof. intros U; inversion U; subst; split; assumption. Qed.

End Unfailing.

(** Use up a hypothesis that a concrete trace has no failed call. *)
Ltac no_failure U :=
  repeat (apply unfailing_cons in U;
          let F := fresh "F" in destruct U as [F U]; cbn in F;
          try discriminate F).

(** Close the leaves of a run: compute what the trace shows. *)
Ltac leaf :=
  cbn;
  try (let U := fresh "U" in intros U; no_failure U);
  try discriminate;
  auto.

(** Walk through a whole run. *)
Ltac walk := repeat (step; cbn [fst snd]).

(** In a reliable world the branches where a call raises are empty. *)
Ltac reliably Hrel :=
  try match goal with
      | E : respond ?c ?h = inl _ |- _ =>
          exfalso; destruct (Hrel _ c h) as [? E'];
          rewrite E' in E; discriminate E
      end.

Section Routers.
Context `{W : World}.

Lemma bind_raised (A B : Type) (m : M A) (f : A -> M B) (h : History)
    (e : Exn) (tr : list Event) :
  m h = (Raised e, tr) -> bind m f h = (Raised e, tr).
Proof. intros E; unfold bind; rewrite E; reflexivity. Qed.

Lemma delivers_run (A : Type) (m : M A) (h : History)
    (Q : Outcome A -> list Event -> Prop) (o : Outcome A)
    (tr : list Event) :
  delivers m h Q -> m h = (o, tr) -> Q o tr.
Proof. unfold delivers; intros Hd E; rewrite E in Hd; exact Hd. Qed.
End Routers.

Section RagContextRuns.
Context `{W : World}.

(** Without a branch for the hub, [set_rag_context] cannot return; if no
    external call fails it gets as far as installing a service context
    without a language model, and then stops on the unbound local or on
    the missing key. *)
Lemma set_rag_context_unknown_hub (h : History) :
  llm_hub_unknown ->
  delivers set_rag_context h
    (fun o tr =>
       (forall u : unit, o <> Returned u) /\
       llms_built tr = [] /\ logged tr = [] /\
       (unfailing tr ->
        exists (e : EmbedModel + string) (sc : ServiceContext),
          contexts_built tr = [(None, e, sc)] /\ installed tr = [sc] /\
          (o = Raised (KeyError "llm") \/
           o = Raised (UnboundLocalError "llm_model_key")))).
Proof.
  intros Hhub; unfold set_rag_context.
  step.
  2: destruct (Hhub _ _ E) as [N1 N2];
     apply String.eqb_neq in N1, N2; rewrite N1, N2.
  all: walk.
  all: cbn; repeat split; try discriminate; try reflexivity.
  all: (let V := fresh "V" in intros V; no_failure V).
  all: eexists; eexists; repeat split; eauto.
Qed.

Lemma set_rag_context_unknown_hub_reliable (h : History) :
  reliable -> describes_llm -> llm_hub_unknown ->
  delivers set_rag_context h
    (fun o tr => o = Raised (UnboundLocalError "llm_model_key")).
Proof.
  intros Hrel Hdict Hhub; unfold set_rag_context.
  step; reliably Hrel.
  destruct (Hhub _ _ E) as [N1 N2].
  apply String.eqb_neq in N1, N2; rewrite N1, N2.
  walk; reliably Hrel; try reflexivity.
  all: match goal with
       | E : respond (ServiceContext_to_dict _) _ = inr ?d,
         K : dict_get ?d _ = None |- _ =>
           pose proof (Hdict _ _ _ E); congruence
       end.
Qed.

(** What a run of [set_rag_context] that returns has done. *)
Lemma set_rag_context_returned (h : History) (cfg : ModelConfig) :
  respond get_model_config h = inr cfg ->
  delivers set_rag_context h
    (fun o tr =>
       forall u : unit,
         o = Returned u ->
         (hub (llm (rag cfg)) = "huggingface" \/
          hub (llm (rag cfg)) = "openai") /\
         llms_built tr =
           [(if hub (llm (rag cfg)) =? "huggingface"
             then "HuggingFaceLLM" else "OpenAI",
             model (llm (rag cfg)), model (llm (rag cfg)))] /\
         (exists (l : LLM) (e : EmbedModel + string) (sc : ServiceContext),
             contexts_built tr = [(Some l, e, sc)] /\ installed tr = [sc]) /\
         map (hd (FLit "")) (logged tr) =
           [FLit "llm: "; FLit "embed_model: "; FLit "service context: "]).
Proof.
  intros Hcfg; unfold set_rag_context.
  step.
  2: rewrite Hcfg in E; injection E as <-.
  all: walk.
  all: cbn; intros u Ho; try discriminate Ho.
  all: repeat match goal with
         | B : (hub (llm (rag _)) =? _) = _ |- _ => rewrite ?B; revert B
         end; intros.
  all: repeat match goal with
         | B : (_ =? _) = true |- _ => apply String.eqb_eq in B
         end.
  all: repeat split; eauto.
  all: do 3 eexists; split; reflexivity.
Qed.

(** With an embedding hub it has no branch for, [set_rag_context]
    constructs no embedding class and builds the service context with the
    string [local]. *)
Lemma set_rag_context_local_embedding (h : History) :
  embed_hub_unknown ->
  delivers set_rag_context h
    (fun o tr =>
       embeddings_built tr = [] /\
       forall (l : option LLM) (e : EmbedModel + string)
              (sc : ServiceContext),
         In (l, e, sc) (contexts_built tr) -> e = inr "local").
Proof.
  intros Hemb; unfold set_rag_context.
  walk.
  all: try match goal with
         | E : respond (get_rag_embed_model _) _ = inr ?em,
           B : (hub ?em =? _) = true |- _ =>
             exfalso; apply String.eqb_eq in B;
             destruct (Hemb _ _ _ E) as [? ?]; congruence
         end.
  all: cbn; split; [reflexivity |].
  all: intros l' e' sc' Hin; repeat destruct Hin as [Hin | Hin];
    try contradiction; inversion Hin; reflexivity.
Qed.

End RagContextRuns.

(** Unfold the entry points of the backends down to their external
    calls. *)
Ltac unfold_backends :=
  unfold Weaviate.process_query, Weaviate.vectorize_docs,
    Weaviate.get_storage_context, Weaviate.get_vector_store,
    Weaviate.get_client,
    ChromaDB.process_query, ChromaDB.vectorize_docs,
    ChromaDB.get_storage_context, ChromaDB.get_vector_store,
    ChromaDB.get_client,
    BaseVectorStore.index_from_docs, BaseVectorStore.index_from_vector_store,
    BaseVectorStore.persist_index, BaseVectorStore.query_index.

Section ContextTrace.
Context `{W : World}.

(** The trace of [set_rag_context] shows no index built, in any run. *)
Lemma set_rag_context_builds_nothing (h : History) :
  built (snd (set_rag_context h)) = [].
Proof.
  pose proof (set_rag_context_emits h) as C.
  induction C as [| ev tr Hev _ IH]; [reflexivity |].
  unfold built in *; cbn [flat_map]; rewrite IH, app_nil_r.
  destruct ev as [T c r]; unfold context_event in Hev; cbn in Hev.
  destruct c; try discriminate; reflexivity.
Qed.
End ContextTrace.

(** Split a router run at [set_rag_context], whose trace [tr1] shows
    nothing of the backends, and walk through the rest. *)
Ltac past_context h :=
  let R := fresh "Rctx" in
  let Hs := fresh "Hsilent" in
  let Hb := fresh "Hbuilt" in
  apply delivers_bind;
  [ intros ? ? R | intros ? ? R ];
  pose proof (set_rag_context_silent h) as Hs;
  pose proof (set_rag_context_builds_nothing h) as Hb;
  rewrite R in Hs, Hb; cbn [snd] in Hs, Hb;
  destruct Hs as (? & ? & ? & ? & ? & ?).

Ltac read_all :=
  unfold contacted, index_names, answers, clock_reads, measurements,
    persists, built in *;
  repeat rewrite flat_map_app;
  repeat match goal with E : flat_map _ _ = _ |- _ => rewrite E end;
  cbn.

Section PartialRuns.
Context `{W : World}.

(** In every run of a query request with weaviate configured, the managed
    backend is contacted only after weaviate has answered. *)
Lemma process_query_answers_before_chromadb (q : string)
    (vdbs : list string) (h : History) :
  configured vdbs -> In "weaviate" vdbs ->
  delivers (LLamaIndex.process_query q) h
    (fun o tr =>
       In "chromadb" (contacted tr) ->
       exists (a : Answer) (rest : list (string * Answer)),
         answers tr = (q, a) :: rest).
Proof.
  intros Hcfg Hw; apply py_in_spec in Hw.
  unfold LLamaIndex.process_query.
  past_context h.
  - read_all; tauto.
  - step; [read_all; tauto |].
    step; [read_all; tauto |].
    rewrite (Hcfg _ _ E0), Hw.
    unfold_backends; walk.
    all: read_all; eauto.
    all: intuition discriminate.
Qed.



(** A vectorize request that returns has built one index per processed
    backend, each from the documents of the request, and has persisted
    exactly the indexes it built. *)
Lemma vectorize_docs_builds_and_persists (docs : Docs)
    (vdbs : list string) (h : History) :
  delivers (LLamaIndex.vectorize_docs docs vdbs) h
    (fun o tr =>
       forall r : list string,
         o = Returned r ->
         map fst (built tr) = map (fun _ => docs) r /\
         map snd (built tr) = persists tr).
Proof.
  unfold LLamaIndex.vectorize_docs; past_context h.
  - intros r Ho; discriminate Ho.
  - unfold_backends; walk.
    all: intros r Ho; try discriminate Ho.
    all: inversion Ho; subst; read_all; split; reflexivity.
Qed.
End PartialRuns.

Section BackendIndexNames.
Context `{W : World}.

Lemma set_rag_context_unfailing (h : History) :
  reliable -> delivers set_rag_context h (fun o tr => unfailing tr).
Proof.
  intros Hrel; unfold set_rag_context; walk; reliably Hrel.
  all: repeat constructor.
Qed.

(** The index name an ingestion entry point works with: the one it is
    given, and the environment's only when it is given [None]. *)
Lemma Weaviate_vectorize_docs_index (docs : Docs) (index_name : OptStr)
    (h : History) :
  delivers (Weaviate.vectorize_docs docs index_name) h
    (fun o tr =>
       (forall (b : string) (n : OptStr),
           In (b, n) (index_names tr) ->
           n = match index_name with
               | None => environ "LFAI_INDEX_NAME"
               | Some _ => index_name
               end) /\
       (forall u : unit,
           o = Returned u ->
           List.length (index_names tr) = 1%nat /\
           exists i : Index, built tr = [(docs, i)] /\ persists tr = [i])).
Proof.
  destruct index_name as [name |]; unfold_backends; walk.
  all: cbn; split;
    [ intros b n Hin; repeat destruct Hin as [Hin | Hin];
      try contradiction; inversion Hin; reflexivity
    | intros u Ho; try discriminate Ho; eauto ].
Qed.

Lemma ChromaDB_vectorize_docs_index (docs : Docs) (index_name : OptStr)
    (h : History) :
  delivers (ChromaDB.vectorize_docs docs index_name) h
    (fun o tr =>
       (forall (b : string) (n : OptStr),
           In (b, n) (index_names tr) ->
           n = match index_name with
               | None => environ "LFAI_INDEX_NAME"
               | Some _ => index_name
               end) /\
       (forall u : unit,
           o = Returned u ->
           List.length (index_names tr) = 1%nat /\
           exists i : Index, built tr = [(docs, i)] /\ persists tr = [i])).
Proof.
  destruct index_name as [name |]; unfold_backends; walk.
  all: cbn; split;
    [ intros b n Hin; repeat destruct Hin as [Hin | Hin];
      try contradiction; inversion Hin; reflexivity
    | intros u Ho; try discriminate Ho; eauto ].
Qed.
End BackendIndexNames.

Section FirstIngestion.
Context `{W : World}.

Lemma Weaviate_vectorize_docs_not_chroma (docs : Docs) (n : OptStr) :
  emits_only not_chroma (Weaviate.vectorize_docs docs n).
Proof.
  destruct n; unfold_backends; emission.
  all: unfold not_chroma; cbn; intuition discriminate.
Qed.

Lemma not_chroma_contacted (tr : list Event) :
  Forall not_chroma tr -> ~ In "chromadb" (contacted tr).
Proof.
  induction 1 as [| ev tr Hev _ IH]; [intros [] |].
  unfold contacted in *; cbn [flat_map]; intros Hin.
  apply in_app_or in Hin; destruct Hin as [Hin | Hin]; auto.
Qed.

(** In every run of a vectorize request with weaviate enabled, the
    managed backend is contacted only after the ingestion entry point of
    weaviate has run to completion on the documents of the request. *)
Lemma vectorize_docs_ingests_before_chromadb (docs : Docs)
    (vdbs : list string) (h : History) :
  In "weaviate" vdbs ->
  delivers (LLamaIndex.vectorize_docs docs vdbs) h
    (fun o tr =>
       In "chromadb" (contacted tr) ->
       exists (pre trw post : list Event) (i : Index),
         tr = pre ++ trw ++ post /\
         Weaviate.vectorize_docs docs None (h ++ pre) = (Returned tt, trw) /\
         (contacted pre = [] /\ built pre = [] /\ persists pre = []) /\
         contacted trw = ["weaviate"] /\
         index_names trw = [("weaviate", environ "LFAI_INDEX_NAME")] /\
         built trw = [(docs, i)] /\
         persists trw = [i] /\
         In "chromadb" (contacted post)).
Proof.
  intros Hw; apply py_in_spec in Hw.
  unfold LLamaIndex.vectorize_docs; rewrite Hw.
  past_context h.
  - read_all; tauto.
  - step; [read_all; tauto |].
    set (l := Ev (log [FLit "vdbs: "; FList vdbs]) (inr v)) in *.
    apply delivers_assoc, delivers_bind.
    + intros e trw Rw Hin; exfalso.
      pose proof (Weaviate_vectorize_docs_not_chroma docs None
                    ((h ++ tr1) ++ [l])) as N.
      rewrite Rw in N; cbn [snd] in N.
      apply not_chroma_contacted in N; apply N.
      revert Hin; subst l; read_all; tauto.
    + intros u trw Rw; destruct u.
      unfold delivers.
      match goal with
      | |- context [snd (?m ?hh)] => set (post := snd (m hh)); clearbody post
      end.
      intros Hin.
      pose proof (Weaviate_vectorize_docs_index docs None ((h ++ tr1) ++ [l]))
        as D.
      unfold delivers in D; rewrite Rw in D; cbn [fst snd] in D.
      destruct D as (_ & D); destruct (D tt eq_refl) as (_ & i & B & P).
      pose proof (Weaviate_vectorize_docs_returned _ _ Rw) as (C & I & _).
      exists (tr1 ++ [l]), trw, post, i.
      rewrite <- !app_assoc; cbn [app].
      rewrite <- app_assoc in Rw.
      split; [reflexivity |].
      split; [exact Rw |].
      split; [subst l; read_all; auto |].
      split; [exact C |].
      split; [exact I |].
      split; [exact B |].
      split; [exact P |].
      revert Hin; subst l; read_all; rewrite flat_map_app, C; cbn.
      intros [Hin | Hin]; [discriminate Hin | exact Hin].
Qed.
End FirstIngestion.

(** ** The concrete world with other hubs *)

Lemma hub_reliable (llm_hub embed_hub : string) :
  reliable (W := hub_world llm_hub embed_hub).
Proof. intros T c h; destruct c; cbn; eauto. Qed.

Lemma hub_describes_models (llm_hub embed_hub : string) :
  describes_models (W := hub_world llm_hub embed_hub).
Proof.
  intros sc h d E; cbn in E; inversion E; subst; cbn; split; discriminate.
Qed.

Lemma hub_describes_llm (llm_hub embed_hub : string) :
  describes_llm (W := hub_world llm_hub embed_hub).
Proof.
  intros sc h d E; cbn in E; inversion E; subst; cbn; discriminate.
Qed.

Lemma hub_llm_unknown (llm_hub embed_hub : string) :
  llm_hub <> "huggingface" -> llm_hub <> "openai" ->
  llm_hub_unknown (W := hub_world llm_hub embed_hub).
Proof. intros N1 N2 h cfg E; cbn in E; inversion E; subst; cbn; auto. Qed.

Lemma hub_llm_known (llm_hub embed_hub : string) :
  llm_hub = "huggingface" \/ llm_hub = "openai" ->
  llm_hub_known (W := hub_world llm_hub embed_hub).
Proof. intros K h cfg E; cbn in E; inversion E; subst; cbn; exact K. Qed.

Lemma hub_embed_unknown (llm_hub embed_hub : string) :
  embed_hub <> "huggingface" -> embed_hub <> "openai" ->
  embed_hub_unknown (W := hub_world llm_hub embed_hub).
Proof. intros N1 N2 cfg h em E; cbn in E; inversion E; subst; cbn; auto. Qed.

(** * Further properties of the code *)

(** ** [set_rag_context] *)

(** X1.  When the configured language-model hub is neither [huggingface]
    nor [openai], [set_rag_context] never returns, so neither request
    returns and no backend is contacted.  If no external call fails and
    the dict of the service context has its ['llm'] entry, the requests
    raise [UnboundLocalError] for [llm_model_key], after a service context
    without a language model has been built and installed globally. *)
Theorem X1_unknown_llm_hub_stops_every_request
    `{W : World} (q : string) (docs : Docs) (vdbs : list string)
    (h : History) :
  llm_hub_unknown ->
  (forall (u : unit) (tr : list Event),
      set_rag_context h <> (Returned u, tr)) /\
  (forall (r : QueryResult) (tr : list Event),
      LLamaIndex.process_query q h <> (Returned r, tr)) /\
  (forall (r : list string) (tr : list Event),
      LLamaIndex.vectorize_docs docs vdbs h <> (Returned r, tr)) /\
  contacted (snd (LLamaIndex.process_query q h)) = [] /\
  contacted (snd (LLamaIndex.vectorize_docs docs vdbs h)) = [] /\
  (reliable -> describes_llm ->
   fst (LLamaIndex.process_query q h)
     = Raised (UnboundLocalError "llm_model_key") /\
   fst (LLamaIndex.vectorize_docs docs vdbs h)
     = Raised (UnboundLocalError "llm_model_key") /\
   exists (e : EmbedModel + string) (sc : ServiceContext),
     contexts_built (snd (set_rag_context h)) = [(None, e, sc)] /\
     installed (snd (set_rag_context h)) = [sc]).
Proof.
  intros Hhub.
  pose proof (set_rag_context_unknown_hub h Hhub) as D.
  pose proof (set_rag_context_silent h) as Hs.
  unfold delivers in D.
  destruct (set_rag_context h) as [[u | e] tr] eqn:R; cbn [fst snd] in *.
  { destruct D as (D & _); exfalso; exact (D u eq_refl). }
  destruct D as (_ & _ & _ & D); destruct Hs as (C & _).
  assert (Rq : LLamaIndex.process_query q h = (Raised e, tr))
    by (unfold LLamaIndex.process_query; apply bind_raised, R).
  assert (Rv : LLamaIndex.vectorize_docs docs vdbs h = (Raised e, tr))
    by (unfold LLamaIndex.vectorize_docs; apply bind_raised, R).
  rewrite Rq, Rv; cbn [fst snd].
  split; [discriminate |].
  split; [discriminate |].
  split; [discriminate |].
  split; [exact C |].
  split; [exact C |].
  intros Hrel Hdict.
  pose proof (set_rag_context_unknown_hub_reliable h Hrel Hdict Hhub) as E.
  pose proof (set_rag_context_unfailing h Hrel) as U.
  unfold delivers in E, U; rewrite R in E, U; cbn [fst snd] in E, U.
  destruct (D U) as (em & sc & B1 & B2 & _).
  injection E as ->.
  split; [reflexivity | split; [reflexivity |]].
  exists em, sc; split; assumption.
Qed.

Lemma X1_unknown_llm_hub_stops_every_request_witness :
  let W := hub_world "llama.cpp" "openai" in
  fst (LLamaIndex.process_query (W := W) "hello" [])
    = Raised (UnboundLocalError "llm_model_key") /\
  fst (LLamaIndex.vectorize_docs (W := W) ["report.txt"] ["weaviate"] [])
    = Raised (UnboundLocalError "llm_model_key") /\
  contacted (snd (LLamaIndex.process_query (W := W) "hello" [])) = [].
Proof.
  intros W.
  assert (Hhub : llm_hub_unknown (W := W))
    by (apply hub_llm_unknown; discriminate).
  destruct (X1_unknown_llm_hub_stops_every_request
              (W := W) "hello" ["report.txt"] ["weaviate"] [] Hhub)
    as (_ & _ & _ & C & _ & Hr).
  destruct (Hr (@hub_reliable "llama.cpp" "openai")
               (@hub_describes_llm "llama.cpp" "openai"))
    as (Eq & Ev & _).
  split; [exact Eq | split; [exact Ev | exact C]].
Defined.

(** X2.  A run of [set_rag_context] that returns has read a configuration
    whose language-model hub is [huggingface] or [openai]; it has
    constructed exactly one language model, of the class of that hub, with
    the configured model name as tokenizer name and as model name; it has
    built one service context with that model and installed that context
    globally; and it has logged three lines: the model, the embedding
    model, the service context. *)
Theorem X2_set_rag_context_returns_with_known_hub
    `{W : World} (h : History) (cfg : ModelConfig) (u : unit)
    (tr : list Event) :
  respond get_model_config h = inr cfg ->
  set_rag_context h = (Returned u, tr) ->
  (hub (llm (rag cfg)) = "huggingface" \/ hub (llm (rag cfg)) = "openai") /\
  llms_built tr =
    [(if hub (llm (rag cfg)) =? "huggingface"
      then "HuggingFaceLLM" else "OpenAI",
      model (llm (rag cfg)), model (llm (rag cfg)))] /\
  (exists (l : LLM) (e : EmbedModel + string) (sc : ServiceContext),
      contexts_built tr = [(Some l, e, sc)] /\ installed tr = [sc]) /\
  map (hd (FLit "")) (logged tr) =
    [FLit "llm: "; FLit "embed_model: "; FLit "service context: "].
Proof.
  intros Hcfg R.
  pose proof (set_rag_context_returned h Hcfg) as D.
  unfold delivers in D; rewrite R in D; exact (D u eq_refl).
Qed.

Lemma X2_set_rag_context_returns_with_known_hub_witness :
  let W := hub_world "huggingface" "openai" in
  exists (u : unit) (tr : list Event),
    set_rag_context (W := W) [] = (Returned u, tr) /\
    llms_built tr = [("HuggingFaceLLM", "tiny-llm", "tiny-llm")] /\
    map (hd (FLit "")) (logged tr) =
      [FLit "llm: "; FLit "embed_model: "; FLit "service context: "].
Proof.
  intros W.
  destruct (set_rag_context_succeeds
              (W := W) (@hub_reliable "huggingface" "openai")
              (@hub_llm_known "huggingface" "openai" (or_introl eq_refl))
              (@hub_describes_models "huggingface" "openai") [])
    as (u & tr & R).
  exists u, tr; split; [exact R |].
  destruct (X2_set_rag_context_returns_with_known_hub
              (W := W) [] eq_refl R)
    as (_ & L & _ & G).
  split; [exact L | exact G].
Defined.

(** X3.  When the configured embedding hub is neither [huggingface] nor
    [openai], no run of [set_rag_context] constructs an embedding class,
    and every service context it builds is given the string [local] as
    its embedding model. *)
Theorem X3_unknown_embed_hub_falls_back_to_local
    `{W : World} (h : History) :
  embed_hub_unknown ->
  embeddings_built (snd (set_rag_context h)) = [] /\
  forall (l : option LLM) (e : EmbedModel + string) (sc : ServiceContext),
    In (l, e, sc) (contexts_built (snd (set_rag_context h))) ->
    e = inr "local".
Proof. intros Hemb; exact (set_rag_context_local_embedding h Hemb). Qed.

Lemma X3_unknown_embed_hub_falls_back_to_local_witness :
  let W := hub_world "openai" "sentence-transformers" in
  embeddings_built (snd (set_rag_context (W := W) [])) = [] /\
  contexts_built (snd (set_rag_context (W := W) []))
    = [(Some tt, inr "local", tt)].
Proof.
  intros W.
  assert (Hemb : embed_hub_unknown (W := W))
    by (apply hub_embed_unknown; discriminate).
  destruct (X3_unknown_embed_hub_falls_back_to_local (W := W) [] Hemb)
    as (E & _).
  split; [exact E | reflexivity].
Defined.



(** ** The ingestion entry points *)

(** X5.  An ingestion entry point works with the index name it is given,
    whatever it is (the empty string included); it takes the
    environment's [LFAI_INDEX_NAME] only when it is given [None].  This
    holds for every vector-store lookup of every run, of either backend,
    and a run that returns has made exactly one lookup. *)
Theorem X5_given_index_name_overrides_environment
    `{W : World} (docs : Docs) (index_name : OptStr) (h : History) :
  let chosen :=
    match index_name with
    | None => environ "LFAI_INDEX_NAME"
    | Some _ => index_name
    end in
  (forall (b : string) (n : OptStr),
      In (b, n) (index_names (snd (Weaviate.vectorize_docs docs index_name h))
                   ++ index_names
                        (snd (ChromaDB.vectorize_docs docs index_name h))) ->
      n = chosen) /\
  (forall (u : unit) (tr : list Event),
      Weaviate.vectorize_docs docs index_name h = (Returned u, tr) ->
      index_names tr = [("weaviate", chosen)]) /\
  (forall (u : unit) (tr : list Event),
      ChromaDB.vectorize_docs docs index_name h = (Returned u, tr) ->
      index_names tr = [("chromadb", chosen)]).
Proof.
  intros chosen.
  pose proof (Weaviate_vectorize_docs_index docs index_name h) as Dw.
  pose proof (ChromaDB_vectorize_docs_index docs index_name h) as Dc.
  unfold delivers in Dw, Dc.
  split; [| split].
  - intros b n Hin; apply in_app_or in Hin; destruct Hin as [Hin | Hin].
    + exact (proj1 Dw b n Hin).
    + exact (proj1 Dc b n Hin).
  - intros u tr R; clear Dw Dc; revert R.
    destruct index_name as [name |]; unfold_backends; intros R;
      run_apart; reflexivity.
  - intros u tr R; clear Dw Dc; revert R.
    destruct index_name as [name |]; unfold_backends; intros R;
      run_apart; reflexivity.
Qed.

Lemma X5_given_index_name_overrides_environment_witness :
  let W := lab_world [] true in
  exists (u : unit) (tr : list Event),
    Weaviate.vectorize_docs (W := W) ["report.txt"] (Some "") []
      = (Returned u, tr) /\
    index_names tr = [("weaviate", Some "")].
Proof.
  intros W.
  destruct (X5_given_index_name_overrides_environment
              (W := W) ["report.txt"] (Some "") []) as (_ & Hw & _).
  exists tt; eexists; split; [vm_compute; reflexivity |].
  apply (Hw tt); vm_compute; reflexivity.
Defined.

(** ** The vectorize request *)

(** X6.  A vectorize request ingests into the index named by the
    environment's [LFAI_INDEX_NAME] in every backend: every vector-store
    lookup of every run is given that name, and a run that returns has
    made one lookup with it per processed backend, in order. *)
Theorem X6_vectorize_uses_the_environment_index
    `{W : World} (docs : Docs) (vdbs : list string) (h : History) :
  (forall (b : string) (n : OptStr),
      In (b, n) (index_names (snd (LLamaIndex.vectorize_docs docs vdbs h))) ->
      n = environ "LFAI_INDEX_NAME") /\
  (forall (r : list string) (tr : list Event),
      LLamaIndex.vectorize_docs docs vdbs h = (Returned r, tr) ->
      index_names tr = map (fun b => (b, environ "LFAI_INDEX_NAME")) r).
Proof.
  split.
  - intros b n Hin; unfold index_names in Hin.
    apply in_flat_map in Hin; destruct Hin as (ev & Hev & Hn).
    pose proof (vectorize_docs_names_the_index docs vdbs h) as A.
    rewrite Forall_forall in A; exact (A ev Hev b n Hn).
  - intros r tr R; apply LLamaIndex_vectorize_docs_returned in R.
    destruct R as (-> & _ & I & _); exact I.
Qed.

Lemma X6_vectorize_uses_the_environment_index_witness :
  let vdbs := ["chromadb"; "weaviate"] in
  let W := lab_world [] true in
  exists (r : list string) (tr : list Event),
    LLamaIndex.vectorize_docs (W := W) ["report.txt"] vdbs []
      = (Returned r, tr) /\
    index_names tr
      = map (fun b => (b, environ (World := W) "LFAI_INDEX_NAME")) r.
Proof.
  intros vdbs W.
  destruct (LLamaIndex_vectorize_docs_succeeds
              (W := W) (@lab_reliable []) (@lab_llm_hub_known [] true)
              (@lab_describes_models [] true) ["report.txt"] vdbs [])
    as (r & tr & R).
  exists r, tr; split; [exact R |].
  exact (proj2 (X6_vectorize_uses_the_environment_index
                  (W := W) ["report.txt"] vdbs []) r tr R).
Defined.

(** X7.  A vectorize request that returns has built one index per
    processed backend, each from the documents of the request, and the
    indexes it has persisted are exactly the indexes it has built, in the
    same order. *)
Theorem X7_vectorize_persists_what_it_builds
    `{W : World} (docs : Docs) (vdbs : list string) (h : History)
    (r : list string) (tr : list Event) :
  LLamaIndex.vectorize_docs docs vdbs h = (Returned r, tr) ->
  map fst (built tr) = map (fun _ => docs) r /\
  map snd (built tr) = persists tr.
Proof.
  intros R.
  pose proof (vectorize_docs_builds_and_persists docs vdbs h) as D.
  unfold delivers in D; rewrite R in D; exact (D r eq_refl).
Qed.

Lemma X7_vectorize_persists_what_it_builds_witness :
  let vdbs := ["chromadb"; "weaviate"] in
  let W := lab_world [] true in
  exists (r : list string) (tr : list Event),
    LLamaIndex.vectorize_docs (W := W) ["report.txt"] vdbs []
      = (Returned r, tr) /\
    map fst (built tr) = map (fun _ => ["report.txt"]) r /\
    map snd (built tr) = persists tr.
Proof.
  intros vdbs W.
  destruct (LLamaIndex_vectorize_docs_succeeds
              (W := W) (@lab_reliable []) (@lab_llm_hub_known [] true)
              (@lab_describes_models [] true) ["report.txt"] vdbs [])
    as (r & tr & R).
  exists r, tr; split; [exact R |].
  exact (X7_vectorize_persists_what_it_builds (W := W) ["report.txt"] vdbs
           [] R).
Defined.

(** X8.  In every run of a vectorize request that names weaviate, the
    managed backend is contacted only after the ingestion entry point of
    weaviate has run to completion: it has looked up the index of the
    environment in weaviate, built an index from the documents of the
    request and persisted that index, and these are the first index built
    and the first index persisted of the run.  So a request that fails in
    the managed backend, and returns nothing, has nevertheless ingested the
    documents into weaviate. *)
Theorem X8_failed_vectorize_keeps_the_first_ingestion
    `{W : World} (docs : Docs) (vdbs : list string) (h : History) :
  In "weaviate" vdbs ->
  In "chromadb" (contacted (snd (LLamaIndex.vectorize_docs docs vdbs h))) ->
  exists (pre trw post : list Event) (i : Index),
    snd (LLamaIndex.vectorize_docs docs vdbs h) = pre ++ trw ++ post /\
    Weaviate.vectorize_docs docs None (h ++ pre) = (Returned tt, trw) /\
    contacted pre = [] /\
    contacted trw = ["weaviate"] /\
    index_names trw = [("weaviate", environ "LFAI_INDEX_NAME")] /\
    built trw = [(docs, i)] /\
    persists trw = [i] /\
    In "chromadb" (contacted post) /\
    built (snd (LLamaIndex.vectorize_docs docs vdbs h))
      = (docs, i) :: built post /\
    persists (snd (LLamaIndex.vectorize_docs docs vdbs h))
      = i :: persists post /\
    (1 <= List.length (persists (snd (LLamaIndex.vectorize_docs docs vdbs h))))
      %nat.
Proof.
  intros Hw Hin.
  destruct (vectorize_docs_ingests_before_chromadb docs vdbs h Hw Hin)
    as (pre & trw & post & i & E & R & (C0 & B0 & P0) & C & I & B & P & Hc).
  exists pre, trw, post, i.
  rewrite E.
  assert (Eb : built (pre ++ trw ++ post) = (docs, i) :: built post)
    by (unfold built in *; rewrite !flat_map_app, B0, B; reflexivity).
  assert (Ep : persists (pre ++ trw ++ post) = i :: persists post)
    by (unfold persists in *; rewrite !flat_map_app, P0, P; reflexivity).
  rewrite Eb, Ep.
  repeat split; try assumption.
  cbn; lia.
Qed.

Lemma X8_failed_vectorize_keeps_the_first_ingestion_witness :
  let vdbs := ["chromadb"; "weaviate"] in
  let W := lab_world [] false in
  let run := LLamaIndex.vectorize_docs (W := W) ["report.txt"] vdbs [] in
  fst run = Raised (LibraryError "connection refused") /\
  exists (i : Index) (built_later : list (Docs * Index))
         (persisted_later : list Index),
    built (snd run) = (["report.txt"], i) :: built_later /\
    persists (snd run) = i :: persisted_later.
Proof.
  intros vdbs W run; split; [reflexivity |].
  destruct (X8_failed_vectorize_keeps_the_first_ingestion
              (W := W) ["report.txt"] vdbs [])
    as (pre & trw & post & i & _ & _ & _ & _ & _ & _ & _ & _ & B & P & _).
  - right; left; reflexivity.
  - apply (nth_error_In _ 1); vm_compute; reflexivity.
  - exists i, (built post), (persists post); split; [exact B | exact P].
Defined.

(** X9.  When the backend list names neither [weaviate] nor [chromadb]
    (it is empty, or its names are spelt otherwise), a vectorize request
    that returns has ingested nothing and returns the empty list, and a
    query request that returns has asked no backend and returns no
    answers.  The list itself stops neither request: when no external call
    fails, each request returns exactly when [set_rag_context] does; so
    both return when, moreover, the configured language-model hub is
    [huggingface] or [openai] and the dict of the service context has its
    ['llm'] and ['embed_model'] entries. *)
Theorem X9_no_supported_backend_is_not_an_error
    `{W : World} (q : string) (docs : Docs) (vdbs : list string)
    (h : History) :
  ~ In "weaviate" vdbs -> ~ In "chromadb" vdbs ->
  (forall (r : list string) (tr : list Event),
      LLamaIndex.vectorize_docs docs vdbs h = (Returned r, tr) ->
      r = [] /\ contacted tr = [] /\ built tr = [] /\ persists tr = []) /\
  (forall (r : QueryResult) (tr : list Event),
      configured vdbs ->
      LLamaIndex.process_query q h = (Returned r, tr) ->
      vdbs_processed r = [] /\ responses r = [] /\
      contacted tr = [] /\ answers tr = []) /\
  (reliable ->
   (succeeds (LLamaIndex.vectorize_docs docs vdbs) h
    <-> succeeds set_rag_context h) /\
   (succeeds (LLamaIndex.process_query q) h
    <-> succeeds set_rag_context h)) /\
  (reliable -> llm_hub_known -> describes_models ->
   succeeds (LLamaIndex.vectorize_docs docs vdbs) h /\
   succeeds (LLamaIndex.process_query q) h).
Proof.
  intros Nw Nc.
  assert (E : enabled vdbs = []).
  { rewrite enabled_split.
    destruct (py_in "weaviate" vdbs) eqn:Bw;
      [apply py_in_spec in Bw; contradiction |].
    destruct (py_in "chromadb" vdbs) eqn:Bc;
      [apply py_in_spec in Bc; contradiction | reflexivity]. }
  split; [| split; [| split]].
  - intros r tr R.
    pose proof (vectorize_docs_builds_and_persists docs vdbs h) as D.
    unfold delivers in D; rewrite R in D; cbn [fst snd] in D.
    destruct (D r eq_refl) as [B1 B2]; clear D.
    apply LLamaIndex_vectorize_docs_returned in R.
    destruct R as (-> & C & _ & P & _).
    rewrite E in *; cbn in B1.
    apply map_eq_nil in B1; rewrite B1 in B2; cbn in B2.
    repeat split; auto.
  - intros r tr Hcfg R.
    apply LLamaIndex_process_query_returned in R.
    destruct R as (h' & cfg & s & ss & Hc & _ & P & V & C & _ & A & _).
    rewrite (Hcfg _ _ Hc), E in *.
    apply map_eq_nil in V; rewrite V in A.
    repeat split; auto.
  - intros Hrel; split.
    + apply LLamaIndex_vectorize_docs_succeeds_iff, Hrel.
    + apply LLamaIndex_process_query_succeeds_iff, Hrel.
  - intros Hrel Hhub Hdict; split.
    + apply LLamaIndex_vectorize_docs_succeeds; assumption.
    + apply LLamaIndex_process_query_succeeds; assumption.
Qed.

Lemma X9_no_supported_backend_is_not_an_error_witness :
  let vdbs := ["Weaviate"; "chroma"] in
  let W := lab_world vdbs true in
  (exists (r : list string) (tr : list Event),
      LLamaIndex.vectorize_docs (W := W) ["report.txt"] vdbs []
        = (Returned r, tr) /\
      r = [] /\ contacted tr = [] /\ built tr = [] /\ persists tr = []) /\
  (exists (r : QueryResult) (tr : list Event),
      LLamaIndex.process_query (W := W) "hello" [] = (Returned r, tr) /\
      vdbs_processed r = [] /\ responses r = [] /\
      contacted tr = [] /\ answers tr = []).
Proof.
  intros vdbs W.
  assert (Nw : ~ In "weaviate" vdbs)
    by (rewrite <- py_in_spec; discriminate).
  assert (Nc : ~ In "chromadb" vdbs)
    by (rewrite <- py_in_spec; discriminate).
  destruct (X9_no_supported_backend_is_not_an_error
              (W := W) "hello" ["report.txt"] vdbs [] Nw Nc)
    as (Hv & Hq & _ & Hs).
  destruct (Hs (@lab_reliable vdbs) (@lab_llm_hub_known vdbs true)
               (@lab_describes_models vdbs true))
    as ((r & tr & R) & (r' & tr' & R')).
  split.
  - exists r, tr; split; [exact R | exact (Hv r tr R)].
  - exists r', tr'; split; [exact R' |].
    exact (Hq r' tr' (@lab_configured vdbs true) R').
Defined.

(** ** [set_rag_context], again *)

(** X10.  No run of [set_rag_context], whether it returns or raises,
    contacts a backend, names an index, asks a query, builds or persists
    an index, or reads the clock. *)
Theorem X10_set_rag_context_touches_no_backend
    `{W : World} (h : History) :
  let tr := snd (set_rag_context h) in
  contacted tr = [] /\ index_names tr = [] /\ answers tr = [] /\
  built tr = [] /\ persists tr = [] /\
  clock_reads tr = [] /\ measurements tr = [].
Proof.
  intros tr.
  destruct (set_rag_context_silent h) as (C & I & A & K & M & P).
  pose proof (set_rag_context_builds_nothing h) as B.
  repeat split; assumption.
Qed.

(** ** The query request *)

(** X11.  In every run of a query request under a configuration that
    names weaviate, the managed backend is contacted only after weaviate
    has answered the prompt: the backends are asked one after the other,
    and the first answer exists even when the request then fails. *)
Theorem X11_query_asks_backends_in_sequence
    `{W : World} (q : string) (vdbs : list string) (h : History) :
  configured vdbs -> In "weaviate" vdbs ->
  In "chromadb" (contacted (snd (LLamaIndex.process_query q h))) ->
  exists (a : Answer) (rest : list (string * Answer)),
    answers (snd (LLamaIndex.process_query q h)) = (q, a) :: rest.
Proof.
  intros Hcfg Hw.
  exact (process_query_answers_before_chromadb q h Hcfg Hw).
Qed.

Lemma X11_query_asks_backends_in_sequence_witness :
  let vdbs := ["chromadb"; "weaviate"] in
  let W := lab_world vdbs false in
  let run := LLamaIndex.process_query (W := W) "hello" [] in
  fst run = Raised (LibraryError "connection refused") /\
  exists (a : string) (rest : list (string * string)),
    answers (snd run) = ("hello", a) :: rest.
Proof.
  intros vdbs W run; split; [vm_compute; reflexivity |].
  apply (X11_query_asks_backends_in_sequence
           (W := W) "hello" (vdbs := vdbs) []).
  - apply lab_configured.
  - right; left; reflexivity.
  - apply (nth_error_In _ 1); vm_compute; reflexivity.
Defined.
